(** * machina.models.fields: the markup field and the extended image field

    A shallow embedding of [machina/models/fields.py].  The module adds two
    field types to the ORM of its host framework:

    - [MarkupTextField], which keeps a raw markup text and a cached rendered
      text in two attributes of a model instance, with the value wrapper
      [MarkupText] and the attribute descriptor [MarkupTextDescriptor];
    - [ExtendedImageField], which checks the byte size and the pixel
      dimensions of an uploaded image and can resize it to a box.

    Python objects are mutable and shared, so model instances live in a
    store ([heap]) and a [MarkupText] wrapper holds the address of its
    instance.  Code that can raise runs in the [result] monad. *)

From Stdlib Require Import ZArith String Ascii List Lia.
From stdpp Require Import gmap gmultiset strings list fin_maps pretty.

Local Open Scope string_scope.
Local Open Scope Z_scope.

(** ** Python preliminaries *)

Module Py.

(** The exception classes that occur in the module. *)
Inductive exn : Type :=
| AttributeError (msg : string)
| KeyError (key : string)
| ImportError (msg : string)
| ValueError (msg : string)
| ImproperlyConfigured (msg : string)
| ValidationError (msg : string).

(** A computation returns a value or raises. *)
Inductive result (A : Type) : Type :=
| Ok (a : A)
| Raise (e : exn).
Arguments Ok {A} a.
Arguments Raise {A} e.

Definition bind {A B : Type} (m : result A) (k : A -> result B) : result B :=
  match m with
  | Ok a => k a
  | Raise e => Raise e
  end.

(** [try: m except h]: the handler [h] picks the exceptions it catches. *)
Definition try_except {A : Type} (m : result A) (h : exn -> option (result A))
  : result A :=
  match m with
  | Ok a => Ok a
  | Raise e => match h e with
               | Some r => r
               | None => Raise e
               end
  end.

Definition is_ValidationError {A : Type} (r : result A) : bool :=
  match r with
  | Raise (ValidationError _) => true
  | _ => false
  end.

Definition is_ImproperlyConfigured {A : Type} (r : result A) : bool :=
  match r with
  | Raise (ImproperlyConfigured _) => true
  | _ => false
  end.

Definition is_AttributeError {A : Type} (r : result A) : bool :=
  match r with
  | Raise (AttributeError _) => true
  | _ => false
  end.

(** [fmt.format(a1, ..., an)] for templates whose fields are all written [{}]:
    the arguments replace the fields from left to right.  Every template
    of the module has as many fields as it is given arguments; a field
    past the last argument (an IndexError in Python) is left in place. *)
Fixpoint format (fmt : string) (args : list string) : string :=
  match fmt with
  | EmptyString => EmptyString
  | String c rest =>
      match c, rest, args with
      | "{"%char, String "}"%char rest', a :: args' => a +:+ format rest' args'
      | _, _, _ => String c (format rest args)
      end
  end.

(** [s.rfind(c)]: the index of the last occurrence of [c], if any. *)
Fixpoint rfind (c : ascii) (s : string) : option nat :=
  match s with
  | EmptyString => None
  | String a s' =>
      match rfind c s' with
      | Some i => Some (S i)
      | None => if Ascii.eqb a c then Some O else None
      end
  end.

(** [s[:n]] and [s[n:]]. *)
Fixpoint take (n : nat) (s : string) : string :=
  match n, s with
  | S n', String a s' => String a (take n' s')
  | _, _ => EmptyString
  end.

Fixpoint drop (n : nat) (s : string) : string :=
  match n, s with
  | S n', String _ s' => drop n' s'
  | _, _ => s
  end.

(** [s.rsplit('.', 1)]: one element when [s] has no dot, else the parts
    before and after the last dot. *)
Definition rsplit_dot (s : string) : list string :=
  match rfind "."%char s with
  | None => [s]
  | Some i => [take i s; drop (S i) s]
  end.

(** [os.path.split(p)[-1]] on a POSIX path: what follows the last slash. *)
Definition path_split_tail (p : string) : string :=
  match rfind "/"%char p with
  | None => p
  | Some i => drop (S i) p
  end.

(** Is there a character other than [c] in [s[lo:hi]]?  The loop of
    [genericpath._splitext] that skips leading dots. *)
Fixpoint has_other (c : ascii) (s : string) (lo hi : nat) : bool :=
  match s, hi with
  | EmptyString, _ => false
  | _, O => false
  | String a s', S hi' =>
      match lo with
      | O => if Ascii.eqb a c then has_other c s' O hi' else true
      | S lo' => has_other c s' lo' hi'
      end
  end.

(** [os.path.splitext(p)[0]] on a POSIX path: [p] without its extension.
    The extension starts at the last dot, when that dot comes after the
    last slash and after a character of the file name that is not a dot. *)
Definition path_splitext_root (p : string) : string :=
  match rfind "."%char p with
  | None => p
  | Some dotIndex =>
      let filenameIndex :=
        match rfind "/"%char p with
        | None => O
        | Some sepIndex => S sepIndex
        end in
      if has_other "."%char p filenameIndex dotIndex
      then take dotIndex p
      else p
  end.

(** [os.path.splitext(p)[1]] on a POSIX path: the extension, from its
    dot on, or the empty string. *)
Definition path_splitext_ext (p : string) : string :=
  match rfind "."%char p with
  | None => EmptyString
  | Some dotIndex =>
      let filenameIndex :=
        match rfind "/"%char p with
        | None => O
        | Some sepIndex => S sepIndex
        end in
      if has_other "."%char p filenameIndex dotIndex
      then drop dotIndex p
      else EmptyString
  end.

(** Truth value of an optional integer: [None] and [0] are false. *)
Definition truthy (o : option Z) : bool :=
  match o with
  | None => false
  | Some n => negb (n =? 0)
  end.

(** An option that was left at [None] or set to [0]. *)
Definition unset (o : option Z) : Prop := o = None \/ o = Some 0.

End Py.

Export Py.

(** [result] is a monad; stdpp's notation [x ← m; k] is used for it. *)
#[global] Instance result_ret : MRet result := @Ok.
#[global] Instance result_bind : MBind result := fun A B k m => Py.bind m k.

(** ** The markup field *)

Module Markup.

(** Addresses of objects in the store. *)
Definition loc := nat.

(** [class MarkupText(SafeData)]: the wrapper keeps a reference to the
    instance and the names of the two attributes. *)
Record MarkupText : Type := mkMarkupText {
  instance : loc;
  field_name : string;
  rendered_field_name : string
}.

(** The values that the attributes of an instance hold. *)
Inductive val : Type :=
| VNone
| VInt (n : Z)
| VStr (s : string)
| VSafeText (s : string)
| VMarkupText (w : MarkupText)
| VObj (l : loc).

(** The classes of these values, with their direct bases. *)
Inductive pyclass : Type :=
| C_object | C_NoneType | C_int | C_unicode
| C_SafeData | C_SafeText | C_MarkupText | C_Model.

#[global] Instance pyclass_eq_dec : EqDecision pyclass.
Proof. solve_decision. Defined.

Definition bases (c : pyclass) : list pyclass :=
  match c with
  | C_object => []
  | C_SafeText => [C_unicode; C_SafeData]
  | C_MarkupText => [C_SafeData]
  | _ => [C_object]
  end.

(** [issubclass c d], following [bases]; the hierarchy has depth 3. *)
Fixpoint issubclass_depth (depth : nat) (c d : pyclass) : bool :=
  bool_decide (c = d) ||
  match depth with
  | O => false
  | S depth' => existsb (fun b => issubclass_depth depth' b d) (bases c)
  end.

Definition issubclass : pyclass -> pyclass -> bool := issubclass_depth 3.

Definition type_of (v : val) : pyclass :=
  match v with
  | VNone => C_NoneType
  | VInt _ => C_int
  | VStr _ => C_unicode
  | VSafeText _ => C_SafeText
  | VMarkupText _ => C_MarkupText
  | VObj _ => C_Model
  end.

Definition isinstance (v : val) (c : pyclass) : bool := issubclass (type_of v) c.

(** [_rendered_field_name = lambda name: '_{}_rendered'.format(name)] *)
Definition _rendered_field_name (name : string) : string :=
  format "_{}_rendered" [name].

(** [MarkupTextField]: the flag set by [__init__], and the names that the
    framework's [set_attributes_from_name] assigns when the field is
    contributed to a class (empty until then). *)
Record MarkupTextField : Type := mkMarkupTextField {
  add_rendered_field : bool;
  name : string;
  attname : string
}.

#[global] Instance MarkupTextField_eq_dec : EqDecision MarkupTextField.
Proof. solve_decision. Defined.

#[global] Instance MarkupTextField_countable : Countable MarkupTextField.
Proof.
  refine (inj_countable'
            (fun f => (add_rendered_field f, name f, attname f))
            (fun t => mkMarkupTextField t.1.1 t.1.2 t.2) _).
  intros []. reflexivity.
Defined.

(** [MarkupTextField.__init__]: [no_rendered_field] is popped from the
    keyword arguments, [False] when absent. *)
Definition MarkupTextField_init (no_rendered_field : option bool) : MarkupTextField :=
  {| add_rendered_field := negb (default false no_rendered_field);
     name := "";
     attname := "" |}.

Record MarkupTextDescriptor : Type := mkMarkupTextDescriptor {
  field : MarkupTextField;
  descr_rendered_field_name : string
}.

(** [MarkupTextDescriptor.__init__] *)
Definition MarkupTextDescriptor_init (field : MarkupTextField) : MarkupTextDescriptor :=
  {| field := field;
     descr_rendered_field_name := _rendered_field_name (name field) |}.

(** The fields that a model class holds in its [_meta]. *)
Inductive field_decl : Type :=
| TextField (editable blank null : bool)
| MarkupField (f : MarkupTextField).

#[global] Instance field_decl_eq_dec : EqDecision field_decl.
Proof. solve_decision. Defined.

#[global] Instance field_decl_countable : Countable field_decl.
Proof.
  refine (inj_countable'
            (fun d => match d with
                      | TextField e b n => inl (e, b, n)
                      | MarkupField f => inr f
                      end)
            (fun x => match x with
                      | inl t => TextField t.1.1 t.1.2 t.2
                      | inr f => MarkupField f
                      end) _).
  intros []; reflexivity.
Defined.

(** What this module reads and writes of a model class.  The fields are a
    multiset of names with their declarations: the framework keeps them
    sorted by the creation counter of the fields, which this module
    neither sets nor reads, so no order is recorded here. *)
Record ModelClass : Type := mkModelClass {
  abstract : bool;
  local_fields : gmultiset (string * field_decl);
  pre_save_receivers : list MarkupTextField;
  class_descriptors : gmap string MarkupTextDescriptor
}.

Definition empty_class (abstract : bool) : ModelClass :=
  {| abstract := abstract; local_fields := ∅;
     pre_save_receivers := []; class_descriptors := ∅ |}.

(** A model instance: its class and its [__dict__]. *)
Record object : Type := mkObject {
  cls : ModelClass;
  dict : gmap string val
}.

#[global] Instance object_inhabited : Inhabited object :=
  populate {| cls := empty_class false; dict := ∅ |}.

(** The store.  An address that was never allocated reads as an object
    with an empty [__dict__]. *)
Abbreviation heap := (gmap loc object).

Definition set_dict (o : object) (d : gmap string val) : object :=
  {| cls := cls o; dict := d |}.

Definition AttributeError_only {A : Type} (r : result A) (e : exn)
  : option (result A) :=
  match e with
  | AttributeError _ => Some r
  | _ => None
  end.

Section Operations.

(** [render_func], built from the setting when the module is loaded,
    and the framework's [mark_safe]. *)
Variable render_func : val -> val.
Variable mark_safe : val -> val.
(** The translation function [_]. *)
Variable gettext : string -> string.

(** [instance.__dict__[key]] *)
Definition dict_getitem (h : heap) (l : loc) (key : string) : result val :=
  match dict (h !!! l) !! key with
  | Some v => Ok v
  | None => Raise (KeyError key)
  end.

(** [instance.__dict__[key] = v] *)
Definition dict_setitem (h : heap) (l : loc) (key : string) (v : val) : heap :=
  <[l := set_dict (h !!! l) (<[key := v]> (dict (h !!! l)))]> h.

(** [MarkupTextDescriptor.__get__]; [instance] is [None] when the
    attribute is looked up on the class. *)
Definition __get__ (self : MarkupTextDescriptor) (h : heap)
    (instance : option loc) : result val :=
  match instance with
  | None => Raise (AttributeError (gettext "Can only be accessed via an instance."))
  | Some l =>
      raw ← dict_getitem h l (name (field self));
      match raw with
      | VNone => Ok VNone
      | _ => Ok (VMarkupText
                   (mkMarkupText l (name (field self)) (descr_rendered_field_name self)))
      end
  end.

(** [getattr(instance, name)]: a descriptor of the class comes first,
    then the [__dict__] of the instance. *)
Definition getattr (h : heap) (l : loc) (name : string) : result val :=
  match class_descriptors (cls (h !!! l)) !! name with
  | Some d => __get__ d h (Some l)
  | None =>
      match dict (h !!! l) !! name with
      | Some v => Ok v
      | None => Raise (AttributeError name)
      end
  end.

(** [getattr(cls, name)] on the class itself, for a name bound to a
    descriptor. *)
Definition class_getattr (c : ModelClass) (h : heap) (name : string) : result val :=
  match class_descriptors c !! name with
  | Some d => __get__ d h None
  | None => Raise (AttributeError name)
  end.

(** [MarkupText._get_raw] *)
Definition _get_raw (h : heap) (self : MarkupText) : result val :=
  dict_getitem h (instance self) (field_name self).

(** [MarkupText._get_rendered] *)
Definition _get_rendered (h : heap) (self : MarkupText) : result val :=
  v ← getattr h (instance self) (rendered_field_name self);
  Ok (mark_safe v).

(** [MarkupText.__unicode__] *)
Definition __unicode__ (h : heap) (self : MarkupText) : result val :=
  _get_raw h self.

(** [value.raw] for any value: the property of a wrapper, an attribute
    of another object, an AttributeError for the rest. *)
Definition attr_raw (h : heap) (value : val) : result val :=
  match value with
  | VMarkupText w => _get_raw h w
  | VObj l => getattr h l "raw"
  | _ => Raise (AttributeError "raw")
  end.

(** [hasattr(value, 'raw')]: false on AttributeError; another exception
    propagates, as in Python 3.  (Python 2 answers false on every
    exception; the two agree on the values that [__get__] returns, whose
    [raw] can be read.) *)
Definition hasattr_raw (h : heap) (value : val) : result bool :=
  try_except (_ ← attr_raw h value; Ok true) (AttributeError_only (Ok false)).

(** [MarkupTextDescriptor.__set__].  The rendered attribute is an
    ordinary attribute (no descriptor is bound to a name of the form
    [_<name>_rendered]), so [setattr] on it stores into the
    [__dict__].  The store left behind by a raise is not modelled. *)
Definition __set__ (self : MarkupTextDescriptor) (h : heap) (l : loc)
    (value : val) : result heap :=
  if isinstance value C_MarkupText then
    match value with
    | VMarkupText w =>
        raw ← _get_raw h w;
        let h1 := dict_setitem h l (name (field self)) raw in
        rendered ← _get_rendered h1 w;
        Ok (dict_setitem h1 l (descr_rendered_field_name self) rendered)
    | _ => Raise (AttributeError "raw")
    end
  else
    Ok (dict_setitem h l (name (field self)) value).

(** [setattr(instance, name, v)] *)
Definition setattr (h : heap) (l : loc) (name : string) (v : val) : result heap :=
  match class_descriptors (cls (h !!! l)) !! name with
  | Some d => __set__ d h l v
  | None => Ok (dict_setitem h l name v)
  end.

(** [MarkupText._set_raw] *)
Definition _set_raw (h : heap) (self : MarkupText) (v : val) : result heap :=
  setattr h (instance self) (field_name self) v.

(** [MarkupTextField.get_db_prep_value] *)
Definition get_db_prep_value (h : heap) (value : val) : result val :=
  try_except (attr_raw h value) (AttributeError_only (Ok value)).

(** [MarkupTextField.value_to_string] *)
Definition value_to_string (self : MarkupTextField) (h : heap) (obj : loc)
  : result val :=
  value ← getattr h obj (attname self);
  attr_raw h value.

(** [MarkupTextField.render_data], the receiver of [pre_save]; the
    signal always passes the instance. *)
Definition render_data (self : MarkupTextField) (h : heap) (instance : loc)
  : result heap :=
  value ← getattr h instance (attname self);
  has_raw ← hasattr_raw h value;
  rendered ← (if has_raw : bool
              then raw ← attr_raw h value; Ok (render_func raw)
              else Ok VNone);
  setattr h instance (_rendered_field_name (attname self)) rendered.

(** [signals.pre_save.send(sender=cls, instance=instance)]: the
    receivers connected for the class of the instance run in turn. *)
Fixpoint send_pre_save (receivers : list MarkupTextField) (h : heap)
    (instance : loc) : result heap :=
  match receivers with
  | [] => Ok h
  | r :: receivers' =>
      h' ← render_data r h instance;
      send_pre_save receivers' h' instance
  end.

Definition pre_save (h : heap) (instance : loc) : result heap :=
  send_pre_save (pre_save_receivers (cls (h !!! instance))) h instance.

End Operations.

(** *** Loading the module: the render function named by the setting *)

(** Keyword arguments, and a Python function from text to text that
    takes some. *)
Definition kwargs := list (string * val).
Definition pyfunc := kwargs -> val -> val.

(** [machina_settings]: the setting is a pair of a dotted path and
    keyword arguments, or is absent. *)
Record settings : Type := mkSettings {
  MACHINA_MARKUP_LANGUAGE : option (string * kwargs)
}.

Section Loading.

(** [__import__(module, {}, {}, [func])]: the attributes of the module
    that are functions, or the exception that importing it raises. *)
Variable import_module : string -> result (gmap string pyfunc).
Variable gettext : string -> string.
(** The text of the setting in the error message. *)
Variable str_setting : string * kwargs -> string.

(** [curry(func, **kwargs)] *)
Definition curry (func : pyfunc) (kw : kwargs) : val -> val := func kw.

(** [settings.MACHINA_MARKUP_LANGUAGE] *)
Definition settings_getattr (st : settings) : result (string * kwargs) :=
  match MACHINA_MARKUP_LANGUAGE st with
  | Some v => Ok v
  | None => Raise (AttributeError "MACHINA_MARKUP_LANGUAGE")
  end.

(** [_get_render_function] *)
Definition _get_render_function (dotted_path : string) (kw : kwargs)
  : result (val -> val) :=
  match rsplit_dot dotted_path with
  | [module; func] =>
      m ← import_module module;
      match m !! func with
      | Some f => Ok (curry f kw)
      | None => Raise (AttributeError func)
      end
  | _ => Raise (ValueError "need more than 1 value to unpack")
  end.

(** The [try] statement at the top of the module: its result is the
    module's [render_func], or the exception that stops the import. *)
Definition load_render_func (st : settings) : result (val -> val) :=
  try_except
    (p ← settings_getattr st;
     _get_render_function p.1 p.2)
    (fun e =>
       match e with
       | ImportError msg =>
           Some (p ← settings_getattr st;
                 Raise (ImproperlyConfigured
                          (format (gettext "Could not import MACHINA_MARKUP_LANGUAGE {}: {}")
                                  [str_setting p; msg])))
       | AttributeError _ =>
           Some (Raise (ImproperlyConfigured
                          (gettext "MACHINA_MARKUP_LANGUAGE setting is required")))
       | _ => None
       end).

End Loading.

(** The framework's [set_attributes_from_name]: a text field is stored
    under its own name. *)
Definition set_attributes_from_name (f : MarkupTextField) (n : string)
  : MarkupTextField :=
  {| add_rendered_field := add_rendered_field f; name := n; attname := n |}.

(** The framework's [_meta.add_field]: one more field, wherever its
    creation counter places it. *)
Definition add_field (c : ModelClass) (n : string) (d : field_decl) : ModelClass :=
  {| abstract := abstract c;
     local_fields := {[+ (n, d) +]} ⊎ local_fields c;
     pre_save_receivers := pre_save_receivers c;
     class_descriptors := class_descriptors c |}.

(** [signals.pre_save.connect(receiver, sender=cls)] *)
Definition connect_pre_save (c : ModelClass) (f : MarkupTextField) : ModelClass :=
  {| abstract := abstract c;
     local_fields := local_fields c;
     pre_save_receivers := pre_save_receivers c ++ [f];
     class_descriptors := class_descriptors c |}.

(** [setattr(cls, name, descriptor)] *)
Definition set_class_descriptor (c : ModelClass) (n : string)
    (d : MarkupTextDescriptor) : ModelClass :=
  {| abstract := abstract c;
     local_fields := local_fields c;
     pre_save_receivers := pre_save_receivers c;
     class_descriptors := <[n := d]> (class_descriptors c) |}.

(** [MarkupTextField.contribute_to_class].  The receiver is a bound
    method of the field object, which the superclass call then names:
    what is connected is the field as it is once contributed. *)
Definition contribute_to_class (self : MarkupTextField) (c : ModelClass)
    (n : string) : MarkupTextField * ModelClass :=
  let self' := set_attributes_from_name self n in
  let c1 :=
    if add_rendered_field self && negb (abstract c)
    then add_field c (_rendered_field_name n) (TextField false true true)
    else c in
  let c2 := connect_pre_save c1 self' in
  let c3 := add_field c2 n (MarkupField self') in
  (self', set_class_descriptor c3 n (MarkupTextDescriptor_init self')).

(** The names of the columns of a class, each as often as it occurs. *)
Definition columns (c : ModelClass) : gmultiset string :=
  gmultiset_map fst (local_fields c).

End Markup.

(** ** The extended image field *)

Module Image.

Definition bytes := list Byte.byte.

(** A file object: its name, its [size] attribute when it has one, and
    what [read()] returns. *)
Record File : Type := mkFile {
  name : string;
  size : option Z;
  content : bytes
}.

(** The value that the framework's [clean] hands back; [file] is the
    uploaded file behind it. *)
Record FieldFile : Type := mkFieldFile {
  file : File
}.

(** What [save_form_data] is given: [None] (no change), [False] (clear),
    an uploaded file or a field file ([DFile]), or a [ContentFile] that
    was given a name ([DContentFile]). *)
Inductive form_data : Type :=
| DNone
| DFalse
| DFile (f : File)
| DContentFile (f : File).

(** Truth value of the data: [None] and [False] are false; an uploaded
    file or a field file is true when it has a name (the framework's
    [File.__bool__]); a [ContentFile] is always true (the framework's
    [ContentFile.__bool__]). *)
Definition data_truth (data : form_data) : bool :=
  match data with
  | DFile f => negb (String.eqb (name f) "")
  | DContentFile _ => true
  | _ => false
  end.

(** The file object behind the data, when there is one. *)
Definition data_file (data : form_data) : option File :=
  match data with
  | DFile f | DContentFile f => Some f
  | _ => None
  end.

Record ExtendedImageField : Type := mkExtendedImageField {
  width : option Z;
  height : option Z;
  min_width : option Z;
  max_width : option Z;
  min_height : option Z;
  max_height : option Z;
  max_upload_size : option Z
}.

(** [kwargs.pop(key, default)] on keyword arguments whose values are
    integers or [None]. *)
Definition pop (kw : gmap string (option Z)) (key : string) (dflt : option Z)
  : option Z :=
  default dflt (kw !! key).

(** [ExtendedImageField.__init__] *)
Definition ExtendedImageField_init (kw : gmap string (option Z)) : ExtendedImageField :=
  {| width := pop kw "width" None;
     height := pop kw "height" None;
     min_width := pop kw "min_width" None;
     max_width := pop kw "max_width" None;
     min_height := pop kw "min_height" None;
     max_height := pop kw "max_height" None;
     max_upload_size := pop kw "max_upload_size" (Some 0) |}.

(** The integer behind an option that was tested true. *)
Definition int_of (o : option Z) : Z := default 0 o.

(** [not lo <= x <= hi] *)
Definition outside (lo x hi : Z) : bool := negb ((lo <=? x) && (x <=? hi)).

(** The framework's [UploadedFile._set_name], which every uploaded file
    passes its name through: the base name is kept, and a name of more
    than 255 characters is cut to 255, the extension being kept.  (The
    cut of the extension itself to 255 characters is absent from older
    releases; both agree when the extension is that short.) *)
Definition UploadedFile_set_name (n : string) : string :=
  let n := path_split_tail n in
  if (255 <? String.length n)%nat then
    let root := path_splitext_root n in
    let ext := path_splitext_ext n in
    let ext := take 255 ext in
    take (255 - String.length ext) root +:+ ext
  else n.

(** [SimpleUploadedFile(name, content)] *)
Definition SimpleUploadedFile (n : string) (c : bytes) : File :=
  {| name := UploadedFile_set_name n;
     size := Some (Z.of_nat (length c));
     content := c |}.

Section Operations.

(** The framework: [Field.clean], [get_image_dimensions],
    [filesizeformat], the translation function and
    [FileField.save_form_data] on a state [St] of its own. *)
Variable super_clean : FieldFile -> result FieldFile.
Variable get_image_dimensions : FieldFile -> Z * Z.
Variable filesizeformat : Z -> string.
Variable gettext : string -> string.
Variable St : Type.
Variable super_save_form_data : St -> form_data -> St.

(** The imaging library: [Image.open], [Image.thumbnail] with the
    antialias filter, and [Image.save] with [format='PNG']. *)
Variable PILImage : Type.
Variable Image_open : bytes -> PILImage.
Variable thumbnail : PILImage -> Z * Z -> PILImage.
Variable save_PNG : PILImage -> bytes.

(** The three checks of [clean], in the order of the source. *)
Definition check_upload_size (self : ExtendedImageField) (image : File)
  : result unit :=
  if truthy (max_upload_size self) && bool_decide (is_Some (size image)) then
    if int_of (size image) >? int_of (max_upload_size self) then
      Raise (ValidationError
               (format (gettext "Files of size greater than {} are not allowed. Your file is {}")
                       [filesizeformat (int_of (max_upload_size self));
                        filesizeformat (int_of (size image))]))
    else Ok tt
  else Ok tt.

Definition check_width (self : ExtendedImageField) (image_width : Z)
  : result unit :=
  if truthy (min_width self) && truthy (max_width self)
     && outside (int_of (min_width self)) image_width (int_of (max_width self)) then
    Raise (ValidationError
             (format (gettext "Images of width lesser than {}px or greater than {}px or are not allowed. The width of your image is {}px")
                     [pretty (int_of (min_width self));
                      pretty (int_of (max_width self));
                      pretty image_width]))
  else Ok tt.

Definition check_height (self : ExtendedImageField) (image_height : Z)
  : result unit :=
  if truthy (min_height self) && truthy (max_height self)
     && outside (int_of (min_height self)) image_height (int_of (max_height self)) then
    Raise (ValidationError
             (format (gettext "Images of height lesser than {}px or greater than {}px or are not allowed. The height of your image is {}px")
                     [pretty (int_of (min_height self));
                      pretty (int_of (max_height self));
                      pretty image_height]))
  else Ok tt.

(** [ExtendedImageField.clean], for a value that is an image with a file
    behind it: [data.file] is there and its dimensions are integers. *)
Definition clean (self : ExtendedImageField) (value : FieldFile)
  : result FieldFile :=
  data ← super_clean value;
  let image := file data in
  _ ← check_upload_size self image;
  let '(image_width, image_height) := get_image_dimensions data in
  _ ← check_width self image_width;
  _ ← check_height self image_height;
  Ok data.

(** [ExtendedImageField.resize_image] *)
Definition resize_image (data : bytes) (size : Z * Z) : bytes :=
  let image := Image_open data in
  let image := thumbnail image size in
  save_PNG image.

(** The file that [save_form_data] hands to the framework. *)
Definition saved_data (self : ExtendedImageField) (data : form_data) : form_data :=
  if data_truth data && truthy (width self) && truthy (height self) then
    match data_file data with
    | Some f =>
        let content := resize_image (content f)
                         (int_of (width self), int_of (height self)) in
        let filename := path_splitext_root (path_split_tail (name f)) in
        let filename := format "{}.png" [filename] in
        DFile (SimpleUploadedFile filename content)
    | None => data
    end
  else data.

(** [ExtendedImageField.save_form_data] *)
Definition save_form_data (self : ExtendedImageField) (instance : St)
    (data : form_data) : St :=
  super_save_form_data instance (saved_data self data).

End Operations.

Arguments resize_image {PILImage} Image_open thumbnail save_PNG data size.
Arguments saved_data {PILImage} Image_open thumbnail save_PNG self data.
Arguments save_form_data {St} super_save_form_data {PILImage}
  Image_open thumbnail save_PNG self instance data.

End Image.

(** ** Instances that carry a markup field *)

Module MarkupShape.
Import Markup.

(** The instance at [l] carries the field [f], as an instance of a class
    that [f] was contributed to does: the class binds the name of [f] to
    the descriptor of [f], and the rendered attribute is an ordinary
    attribute. *)
Definition carries (h : heap) (l : loc) (f : MarkupTextField) : Prop :=
  attname f = name f
  /\ class_descriptors (cls (h !!! l)) !! name f = Some (MarkupTextDescriptor_init f)
  /\ class_descriptors (cls (h !!! l)) !! _rendered_field_name (name f) = None.

(** What a save stores as the rendered value of a raw value. *)
Definition rendered_of (render_func : val -> val) (raw : val) : val :=
  match raw with
  | VNone => VNone
  | _ => render_func raw
  end.

End MarkupShape.

(** ** Sample data

    A render function, a [mark_safe], a model class [Post] with a markup
    field [content], and a store with two posts. *)

Module Samples.
Import Markup.

Definition render (v : val) : val :=
  match v with
  | VStr s => VStr ("<p>" +:+ s +:+ "</p>")
  | _ => v
  end.

Definition mark_safe (v : val) : val :=
  match v with
  | VStr s => VSafeText s
  | VNone => VSafeText "None"
  | VInt n => VSafeText (pretty n)
  | _ => v
  end.

Definition gettext (s : string) : string := s.

Definition contributed : MarkupTextField * ModelClass :=
  contribute_to_class (MarkupTextField_init None) (empty_class false) "content".

Definition content_field : MarkupTextField := contributed.1.
Definition Post : ModelClass := contributed.2.
Definition content_descriptor : MarkupTextDescriptor :=
  MarkupTextDescriptor_init content_field.

Definition post (raw rendered : val) : object :=
  {| cls := Post;
     dict := {[ "content" := raw; "_content_rendered" := rendered ]} |}.

Definition store : heap :=
  {[ 1%nat := post (VStr "hello") (VStr "<p>old</p>");
     2%nat := post VNone VNone ]}.

Definition wrapper1 : MarkupText :=
  mkMarkupText 1%nat "content" "_content_rendered".

(** An interpreter in which one module, [markdown2], can be imported. *)
Definition import_module (module : string) : result (gmap string pyfunc) :=
  if String.eqb module "markdown2"
  then Ok {[ "markdown" := fun (_ : kwargs) (v : val) => render v ]}
  else Raise (ImportError ("No module named " +:+ module)).

Definition str_setting (p : string * kwargs) : string := p.1.

Definition frozen_contributed : MarkupTextField * ModelClass :=
  contribute_to_class (MarkupTextField_init (Some true)) (empty_class false) "content".

(** A class with two markup fields, and an article. *)
Definition Article : ModelClass :=
  (contribute_to_class (MarkupTextField_init None)
     (contribute_to_class (MarkupTextField_init None) (empty_class false) "title").2
     "body").2.

Definition title_field : MarkupTextField :=
  set_attributes_from_name (MarkupTextField_init None) "title".
Definition body_field : MarkupTextField :=
  set_attributes_from_name (MarkupTextField_init None) "body".

Definition articles : heap :=
  {[ 7%nat := {| cls := Article;
                 dict := {[ "title" := VStr "News"; "body" := VNone ]} |} ]}.

(** A post loaded without its [content]. *)
Definition deferred : heap :=
  {[ 3%nat := {| cls := Post; dict := {[ "_content_rendered" := VNone ]} |} ]}.

End Samples.

(** A field for avatars, a toy image format whose first two bytes are the
    width and the height, and an imaging library over it. *)

Module ImageSamples.
Import Image.

Definition byte_of_Z (z : Z) : Byte.byte :=
  default Byte.x00 (Byte.of_N (Z.to_N z)).

Definition Z_of_byte (b : Byte.byte) : Z := Z.of_N (Byte.to_N b).

Definition decode (c : bytes) : Z * Z :=
  match c with
  | w :: h :: _ => (Z_of_byte w, Z_of_byte h)
  | _ => (0, 0)
  end.

Definition encode (d : Z * Z) : bytes := [byte_of_Z d.1; byte_of_Z d.2].

Definition shrink (d box : Z * Z) : Z * Z :=
  (Z.min d.1 box.1, Z.min d.2 box.2).

Definition super_clean (value : FieldFile) : result FieldFile := Ok value.
Definition get_image_dimensions (data : FieldFile) : Z * Z :=
  decode (content (file data)).
Definition filesizeformat (n : Z) : string := pretty n +:+ " bytes".
Definition gettext (s : string) : string := s.

(** A framework [clean] that refuses a file without a name. *)
Definition blank_clean (value : FieldFile) : result FieldFile :=
  if String.eqb (name (file value)) ""
  then Raise (ValidationError "This field cannot be blank.")
  else Ok value.

(** The state of the framework: the data it was asked to save. *)
Definition super_save_form_data (saved : list form_data) (data : form_data)
  : list form_data := data :: saved.

Definition avatar_field : ExtendedImageField :=
  ExtendedImageField_init
    {[ "width" := Some 4; "height" := Some 4;
       "min_width" := Some 2; "max_width" := Some 100;
       "min_height" := Some 2; "max_height" := Some 100;
       "max_upload_size" := Some 10 ]}.

(** Only the lower ends of the ranges are given. *)
Definition half_field : ExtendedImageField :=
  ExtendedImageField_init
    {[ "min_width" := Some 50; "min_height" := Some 50 ]}.

Definition upload (n : string) (w h : Z) (padding : nat) : File :=
  let c := (encode (w, h) ++ repeat Byte.x00 padding)%list in
  {| name := n; size := Some (Z.of_nat (length c)); content := c |}.

Definition small : FieldFile := mkFieldFile (upload "avatars/me.jpg" 50 50 0).
Definition wide : FieldFile := mkFieldFile (upload "wide.jpg" 200 50 0).
Definition heavy : FieldFile := mkFieldFile (upload "heavy.jpg" 50 50 18).

(** An upload whose name is just too long once it ends in [.png], and a
    [ContentFile] with an empty name. *)
Definition long_stem : string := string_of_list_ascii (repeat "a"%char 252).

Definition long : File := upload (long_stem +:+ ".jpg") 50 50 0.

Definition nameless : File :=
  {| name := ""; size := Some 2; content := encode (50, 50) |}.

(** A range whose lower end is zero. *)
Definition zero_min_field : ExtendedImageField :=
  ExtendedImageField_init {[ "min_width" := Some 0; "max_width" := Some 100 ]}.

(** A range upside down, a negative size limit, and a file object
    without a [size] attribute. *)
Definition inverted_field : ExtendedImageField :=
  ExtendedImageField_init {[ "min_width" := Some 100; "max_width" := Some 50 ]}.

Definition negative_field : ExtendedImageField :=
  ExtendedImageField_init {[ "max_upload_size" := Some (-1) ]}.

Definition stream : File :=
  {| name := "stream.jpg"; size := None; content := encode (50, 50) |}.

End ImageSamples.

(** ** Checks of the definitions on concrete inputs *)

Example format_two :
  format "a {} b {}px" ["X"; "Y"] = "a X b Ypx".
Proof. reflexivity. Qed.

Example rsplit_dotted :
  rsplit_dot "machina.core.markdown.markdown" = ["machina.core.markdown"; "markdown"].
Proof. reflexivity. Qed.

Example rsplit_plain : rsplit_dot "markdown" = ["markdown"].
Proof. reflexivity. Qed.

Example splitext_samples :
  path_splitext_root "photo.jpg" = "photo" /\
  path_splitext_root "a.tar.gz" = "a.tar" /\
  path_splitext_root ".bashrc" = ".bashrc" /\
  path_splitext_root "dir.d/name" = "dir.d/name" /\
  path_splitext_root "..x.png" = "..x" /\
  path_split_tail "avatars/me/photo.jpg" = "photo.jpg".
Proof. repeat split; reflexivity. Qed.

Example rendered_name : Markup._rendered_field_name "content" = "_content_rendered".
Proof. reflexivity. Qed.

Example read_post1 :
  Markup.getattr Samples.gettext Samples.store 1%nat "content"
  = Ok (Markup.VMarkupText Samples.wrapper1).
Proof. vm_compute. reflexivity. Qed.

Example read_post2 :
  Markup.getattr Samples.gettext Samples.store 2%nat "content" = Ok Markup.VNone.
Proof. vm_compute. reflexivity. Qed.

Example save_post1 :
  (h ← Markup.pre_save Samples.render Samples.mark_safe Samples.gettext Samples.store 1%nat;
   Markup.getattr Samples.gettext h 1%nat "_content_rendered")
  = Ok (Markup.VStr "<p>hello</p>").
Proof. vm_compute. reflexivity. Qed.

Example clean_small :
  Image.clean ImageSamples.super_clean ImageSamples.get_image_dimensions
    ImageSamples.filesizeformat ImageSamples.gettext
    ImageSamples.avatar_field ImageSamples.small
  = Ok ImageSamples.small.
Proof. vm_compute. reflexivity. Qed.

Example clean_wide :
  Image.clean ImageSamples.super_clean ImageSamples.get_image_dimensions
    ImageSamples.filesizeformat ImageSamples.gettext
    ImageSamples.avatar_field ImageSamples.wide
  = Raise (ValidationError
             "Images of width lesser than 2px or greater than 100px or are not allowed. The width of your image is 200px").
Proof. vm_compute. reflexivity. Qed.

Example clean_heavy :
  Image.clean ImageSamples.super_clean ImageSamples.get_image_dimensions
    ImageSamples.filesizeformat ImageSamples.gettext
    ImageSamples.avatar_field ImageSamples.heavy
  = Raise (ValidationError
             "Files of size greater than 10 bytes are not allowed. Your file is 20 bytes").
Proof. vm_compute. reflexivity. Qed.

Example save_small :
  Image.save_form_data ImageSamples.super_save_form_data
    ImageSamples.decode ImageSamples.shrink ImageSamples.encode
    ImageSamples.avatar_field [] (Image.DFile (Image.file ImageSamples.small))
  = [Image.DFile (Image.SimpleUploadedFile "me.png" (ImageSamples.encode (4, 4)))].
Proof. vm_compute. reflexivity. Qed.

(** ** Properties of the markup field *)

Module MarkupFacts.
Import Markup.

(** *** The result monad *)

Lemma bind_Ok {A B : Type} (a : A) (k : A -> result B) :
  (x ← Ok a; k x) = k a.
Proof. reflexivity. Qed.

Lemma bind_Raise {A B : Type} (e : exn) (k : A -> result B) :
  (x ← Raise e; k x) = Raise e.
Proof. reflexivity. Qed.

(** *** The name of the rendered attribute *)

Lemma _rendered_field_name_eq (n : string) :
  _rendered_field_name n = "_" +:+ n +:+ "_rendered".
Proof. reflexivity. Qed.

Lemma length_append (s t : string) :
  String.length (s +:+ t) = (String.length s + String.length t)%nat.
Proof. induction s as [|a s IH]; simpl; [reflexivity | now rewrite IH]. Qed.

Lemma _rendered_field_name_ne (n : string) : _rendered_field_name n ≠ n.
Proof.
  intros E. apply (f_equal String.length) in E.
  rewrite _rendered_field_name_eq, !length_append in E.
  simpl in E. lia.
Qed.

(** *** Stores into the [__dict__] of an instance *)

Lemma dict_setitem_same (h : heap) (l : loc) (k : string) (v : val) :
  dict (dict_setitem h l k v !!! l) !! k = Some v.
Proof.
  unfold dict_setitem. rewrite lookup_total_insert_eq. simpl.
  apply lookup_insert_eq.
Qed.

Lemma dict_setitem_other_key (h : heap) (l : loc) (k k' : string) (v : val) :
  k ≠ k' -> dict (dict_setitem h l k v !!! l) !! k' = dict (h !!! l) !! k'.
Proof.
  intros Hne. unfold dict_setitem. rewrite lookup_total_insert_eq. simpl.
  now apply lookup_insert_ne.
Qed.

Lemma dict_setitem_other_object (h : heap) (l l' : loc) (k : string) (v : val) :
  l ≠ l' -> dict_setitem h l k v !!! l' = h !!! l'.
Proof. intros Hne. unfold dict_setitem. now apply lookup_total_insert_ne. Qed.

Lemma dict_setitem_cls (h : heap) (l l' : loc) (k : string) (v : val) :
  cls (dict_setitem h l k v !!! l') = cls (h !!! l').
Proof.
  unfold dict_setitem. destruct (decide (l = l')) as [->|Hne].
  - now rewrite lookup_total_insert_eq.
  - now rewrite lookup_total_insert_ne.
Qed.

(** *** Classes of values *)

Lemma isinstance_MarkupText (v : val) :
  isinstance v C_MarkupText = true <-> exists w, v = VMarkupText w.
Proof.
  split.
  - destruct v; vm_compute; intros H; try discriminate. eauto.
  - intros [w ->]. reflexivity.
Qed.

Lemma isinstance_MarkupText_SafeData (w : MarkupText) :
  isinstance (VMarkupText w) C_SafeData = true.
Proof. reflexivity. Qed.

(** *** The class after [contribute_to_class] *)

Lemma contribute_to_class_field (self : MarkupTextField) (c : ModelClass) (n : string) :
  (contribute_to_class self c n).1 = set_attributes_from_name self n.
Proof. reflexivity. Qed.

Lemma contribute_to_class_receivers (self : MarkupTextField) (c : ModelClass)
    (n : string) :
  pre_save_receivers (contribute_to_class self c n).2
  = (pre_save_receivers c ++ [set_attributes_from_name self n])%list.
Proof.
  unfold contribute_to_class. simpl.
  destruct (add_rendered_field self && negb (abstract c)); reflexivity.
Qed.


Section Handlers.

Context (render_func mark_safe : val -> val) (gettext : string -> string).

Local Abbreviation getattr := (getattr gettext).
Local Abbreviation setattr := (setattr mark_safe gettext).
Local Abbreviation __get__ := (__get__ gettext).
Local Abbreviation __set__ := (__set__ mark_safe gettext).
Local Abbreviation attr_raw := (attr_raw gettext).
Local Abbreviation hasattr_raw := (hasattr_raw gettext).
Local Abbreviation render_data := (render_data render_func mark_safe gettext).
Local Abbreviation _get_rendered := (_get_rendered mark_safe gettext).
Local Abbreviation get_db_prep_value := (get_db_prep_value gettext).

Lemma hasattr_raw_true (h : heap) (value raw : val) :
  attr_raw h value = Ok raw -> hasattr_raw h value = Ok true.
Proof. intros H. unfold Markup.hasattr_raw. now rewrite H. Qed.

Lemma hasattr_raw_false (h : heap) (value : val) :
  is_AttributeError (attr_raw h value) = true -> hasattr_raw h value = Ok false.
Proof.
  intros H. unfold Markup.hasattr_raw.
  destruct (attr_raw h value) as [a|[]]; simpl in *; congruence.
Qed.

Lemma setattr_plain (h : heap) (l : loc) (k : string) (v : val) :
  class_descriptors (cls (h !!! l)) !! k = None ->
  setattr h l k v = Ok (dict_setitem h l k v).
Proof. intros H. unfold Markup.setattr. now rewrite H. Qed.

Lemma getattr_plain (h : heap) (l : loc) (k : string) (v : val) :
  class_descriptors (cls (h !!! l)) !! k = None ->
  dict (h !!! l) !! k = Some v ->
  getattr h l k = Ok v.
Proof. intros H1 H2. unfold Markup.getattr. now rewrite H1, H2. Qed.

(** What the descriptor returns, by the stored raw value. *)
Lemma descr_get_Some (d : MarkupTextDescriptor) (h : heap) (l : loc) (raw : val) :
  dict (h !!! l) !! name (field d) = Some raw ->
  __get__ d h (Some l)
  = Ok (match raw with
        | VNone => VNone
        | _ => VMarkupText
                 (mkMarkupText l (name (field d)) (descr_rendered_field_name d))
        end).
Proof.
  intros H. unfold Markup.__get__, dict_getitem. rewrite H.
  destruct raw; reflexivity.
Qed.

(** C3: the wrapper that reading the attribute returns is an instance
    of [SafeData]; its [rendered] property is [mark_safe] applied to the
    stored rendered value; [__unicode__] returns the stored raw value. *)
Theorem MarkupText_exposes_raw_and_rendered (d : MarkupTextDescriptor)
    (h : heap) (l : loc) (w : MarkupText) (raw rendered : val) :
  __get__ d h (Some l) = Ok (VMarkupText w) ->
  dict_getitem h l (name (field d)) = Ok raw ->
  getattr h l (descr_rendered_field_name d) = Ok rendered ->
  isinstance (VMarkupText w) C_SafeData = true
  /\ _get_rendered h w = Ok (mark_safe rendered)
  /\ __unicode__ h w = Ok raw.
Proof.
  intros Hget Hraw Hrendered.
  assert (w = mkMarkupText l (name (field d)) (descr_rendered_field_name d))
    as ->.
  { unfold Markup.__get__ in Hget. rewrite Hraw, bind_Ok in Hget.
    destruct raw; congruence. }
  split; [reflexivity | split].
  - unfold Markup._get_rendered. simpl. now rewrite Hrendered.
  - exact Hraw.
Qed.

(** C10: reading the attribute gives [None] when the stored raw value
    is [None] and otherwise a wrapper that refers to the instance
    itself, so that it reads what is stored later; reading it on the
    class raises AttributeError; [get_db_prep_value] returns [value.raw]
    when the value has that attribute and the value itself when it has
    not. *)
Theorem descriptor_get_and_db_prep_value (d : MarkupTextDescriptor)
    (h : heap) (l : loc) :
  (dict (h !!! l) !! name (field d) = Some VNone ->
     __get__ d h (Some l) = Ok VNone)
  /\ (forall raw, dict (h !!! l) !! name (field d) = Some raw -> raw <> VNone ->
        exists w, __get__ d h (Some l) = Ok (VMarkupText w)
                  /\ instance w = l
                  /\ _get_raw h w = Ok raw
                  /\ forall v, _get_raw (dict_setitem h l (name (field d)) v) w = Ok v)
  /\ (is_AttributeError (__get__ d h None) = true
      /\ forall c n, class_descriptors c !! n = Some d ->
                     is_AttributeError (class_getattr gettext c h n) = true)
  /\ (forall value raw, attr_raw h value = Ok raw ->
        get_db_prep_value h value = Ok raw)
  /\ (forall value, is_AttributeError (attr_raw h value) = true ->
        get_db_prep_value h value = Ok value).
Proof.
  repeat split.
  - intros H. now rewrite (descr_get_Some _ _ _ _ H).
  - intros raw H Hnone.
    exists (mkMarkupText l (name (field d)) (descr_rendered_field_name d)).
    rewrite (descr_get_Some _ _ _ _ H). repeat split.
    + destruct raw; congruence.
    + unfold _get_raw, dict_getitem. simpl. now rewrite H.
    + intros v. unfold _get_raw, dict_getitem. simpl.
      now rewrite dict_setitem_same.
  - intros c n H. unfold class_getattr. now rewrite H.
  - intros value raw H. unfold Markup.get_db_prep_value. now rewrite H.
  - intros value H. unfold Markup.get_db_prep_value.
    destruct (attr_raw h value) as [a|[]]; simpl in *; congruence.
Qed.

(** C9: a plain assignment stores the raw value and nothing else, so
    the rendered attribute keeps the value it had; assigning a wrapper
    stores both the raw value of the wrapper and its rendered value;
    after a plain assignment the rendered attribute reads as before
    until [render_data] runs for the next save and renders the new raw
    value. *)
Theorem descriptor_set_frame (f : MarkupTextField) (h : heap) (l : loc)
    (value : val) :
  let d := MarkupTextDescriptor_init f in
  let rname := _rendered_field_name (name f) in
  attname f = name f ->
  class_descriptors (cls (h !!! l)) !! name f = Some d ->
  class_descriptors (cls (h !!! l)) !! rname = None ->
  (isinstance value C_MarkupText = false ->
     exists h1, setattr h l (name f) value = Ok h1
       /\ dict (h1 !!! l) !! name f = Some value
       /\ (forall k, k <> name f -> dict (h1 !!! l) !! k = dict (h !!! l) !! k)
       /\ (forall l', l' <> l -> h1 !!! l' = h !!! l')
       /\ getattr h1 l rname = getattr h l rname
       /\ (value <> VNone ->
             render_data f h1 l
             = Ok (dict_setitem h1 l rname (render_func value))))
  /\ (forall w raw rendered,
        value = VMarkupText w ->
        _get_raw h w = Ok raw ->
        _get_rendered (dict_setitem h l (name f) raw) w = Ok rendered ->
        exists h1, setattr h l (name f) value = Ok h1
          /\ dict (h1 !!! l) !! name f = Some raw
          /\ dict (h1 !!! l) !! rname = Some rendered).
Proof.
  intros d rname Hatt Hd Hplain.
  assert (Hne : name f <> rname).
  { intros E. symmetry in E. now apply _rendered_field_name_ne in E. }
  split.
  - intros Hinst. exists (dict_setitem h l (name f) value).
    assert (Hset : setattr h l (name f) value
                   = Ok (dict_setitem h l (name f) value)).
    { unfold Markup.setattr. rewrite Hd. unfold Markup.__set__.
      now rewrite Hinst. }
    assert (Hstale : getattr (dict_setitem h l (name f) value) l rname
                     = getattr h l rname).
    { unfold Markup.getattr. rewrite dict_setitem_cls, Hplain.
      now rewrite dict_setitem_other_key. }
    repeat split; try assumption.
    + apply dict_setitem_same.
    + intros k Hk. apply dict_setitem_other_key. congruence.
    + intros l' Hl'. apply dict_setitem_other_object. congruence.
    + intros Hnone. unfold Markup.render_data. rewrite Hatt.
      assert (Hread : getattr (dict_setitem h l (name f) value) l (name f)
                      = Ok (VMarkupText (mkMarkupText l (name f) rname))).
      { unfold Markup.getattr. rewrite dict_setitem_cls, Hd.
        rewrite (descr_get_Some _ _ _ value);
          [destruct value; first [reflexivity | congruence]|].
        apply dict_setitem_same. }
      assert (Hraw : attr_raw (dict_setitem h l (name f) value)
                       (VMarkupText (mkMarkupText l (name f) rname)) = Ok value).
      { simpl. unfold _get_raw, dict_getitem. simpl.
        now rewrite dict_setitem_same. }
      rewrite Hread, bind_Ok, (hasattr_raw_true _ _ _ Hraw), bind_Ok, Hraw.
      rewrite !bind_Ok. apply setattr_plain.
      now rewrite dict_setitem_cls.
  - intros w raw rendered -> Hraw Hrendered.
    exists (dict_setitem (dict_setitem h l (name f) raw) l rname rendered).
    repeat split.
    + unfold Markup.setattr. rewrite Hd. unfold Markup.__set__.
      simpl. rewrite Hraw, bind_Ok, Hrendered. reflexivity.
    + rewrite dict_setitem_other_key by congruence. apply dict_setitem_same.
    + apply dict_setitem_same.
Qed.

End Handlers.

(** *** The theorems on the sample store *)

Lemma MarkupText_exposes_raw_and_rendered_witness :
  isinstance (VMarkupText Samples.wrapper1) C_SafeData = true
  /\ _get_rendered Samples.mark_safe Samples.gettext Samples.store Samples.wrapper1
     = Ok (VSafeText "<p>old</p>")
  /\ __unicode__ Samples.store Samples.wrapper1 = Ok (VStr "hello").
Proof.
  apply (MarkupText_exposes_raw_and_rendered Samples.mark_safe Samples.gettext
           Samples.content_descriptor Samples.store 1%nat Samples.wrapper1
           (VStr "hello") (VStr "<p>old</p>"));
    vm_compute; reflexivity.
Defined.

Lemma descriptor_get_and_db_prep_value_witness :
  __get__ Samples.gettext Samples.content_descriptor Samples.store (Some 2%nat)
  = Ok VNone
  /\ (exists w, __get__ Samples.gettext Samples.content_descriptor Samples.store
                  (Some 1%nat) = Ok (VMarkupText w)
                /\ instance w = 1%nat)
  /\ is_AttributeError
       (class_getattr Samples.gettext Samples.Post Samples.store "content") = true
  /\ get_db_prep_value Samples.gettext Samples.store (VMarkupText Samples.wrapper1)
     = Ok (VStr "hello")
  /\ get_db_prep_value Samples.gettext Samples.store (VStr "plain")
     = Ok (VStr "plain").
Proof.
  pose proof (descriptor_get_and_db_prep_value Samples.gettext
                Samples.content_descriptor Samples.store 2%nat)
    as (Hnone & _ & [_ Hclass] & _ & _).
  pose proof (descriptor_get_and_db_prep_value Samples.gettext
                Samples.content_descriptor Samples.store 1%nat)
    as (_ & Hwrap & _ & Hraw & Hself).
  split; [|split; [|split; [|split]]].
  - apply Hnone. vm_compute. reflexivity.
  - destruct (Hwrap (VStr "hello")) as (w & Hw & Hinst & _);
      [vm_compute; reflexivity | discriminate |].
    exists w. split; assumption.
  - apply Hclass. vm_compute. reflexivity.
  - apply Hraw. vm_compute. reflexivity.
  - apply Hself. vm_compute. reflexivity.
Defined.

Lemma descriptor_set_frame_witness :
  (exists h1,
      setattr Samples.mark_safe Samples.gettext Samples.store 1%nat "content"
        (VStr "new") = Ok h1
      /\ getattr Samples.gettext h1 1%nat "_content_rendered" = Ok (VStr "<p>old</p>")
      /\ render_data Samples.render Samples.mark_safe Samples.gettext
           Samples.content_field h1 1%nat
         = Ok (dict_setitem h1 1%nat "_content_rendered" (VStr "<p>new</p>")))
  /\ (exists h1,
        setattr Samples.mark_safe Samples.gettext Samples.store 2%nat "content"
          (VMarkupText Samples.wrapper1) = Ok h1
        /\ dict (h1 !!! 2%nat) !! "content" = Some (VStr "hello")
        /\ dict (h1 !!! 2%nat) !! "_content_rendered" = Some (VSafeText "<p>old</p>")).
Proof.
  split.
  - destruct (descriptor_set_frame Samples.render Samples.mark_safe Samples.gettext
                Samples.content_field Samples.store 1%nat (VStr "new"))
      as [Hplain _]; [reflexivity | vm_compute; reflexivity ..|].
    destruct (Hplain eq_refl) as (h1 & Hset & _ & _ & _ & Hstale & Hnext).
    exists h1. split; [exact Hset | split].
    + etransitivity; [exact Hstale | vm_compute; reflexivity].
    + apply Hnext. discriminate.
  - destruct (descriptor_set_frame Samples.render Samples.mark_safe Samples.gettext
                Samples.content_field Samples.store 2%nat
                (VMarkupText Samples.wrapper1))
      as [_ Hwrap]; [reflexivity | vm_compute; reflexivity ..|].
    apply (Hwrap Samples.wrapper1 (VStr "hello") (VSafeText "<p>old</p>"));
      [reflexivity | vm_compute; reflexivity ..].
Defined.

(** *** Columns *)

Lemma contribute_to_class_local_fields (self : MarkupTextField) (c : ModelClass)
    (n : string) :
  local_fields (contribute_to_class self c n).2
  = {[+ (n, MarkupField (set_attributes_from_name self n)) +]}
    ⊎ ((if add_rendered_field self && negb (abstract c)
        then {[+ (_rendered_field_name n, TextField false true true) +]}
        else ∅)
       ⊎ local_fields c).
Proof.
  unfold contribute_to_class. simpl.
  destruct (add_rendered_field self && negb (abstract c)); simpl.
  - reflexivity.
  - now rewrite (left_id_L ∅ (⊎)).
Qed.

Lemma columns_empty_class (b : bool) : columns (empty_class b) = ∅.
Proof. apply gmultiset_map_empty. Qed.

Lemma columns_contribute_to_class (self : MarkupTextField) (c : ModelClass)
    (n : string) :
  columns (contribute_to_class self c n).2
  = {[+ n +]}
    ⊎ ((if add_rendered_field self && negb (abstract c)
        then {[+ _rendered_field_name n +]}
        else ∅)
       ⊎ columns c).
Proof.
  unfold columns. rewrite contribute_to_class_local_fields.
  rewrite !gmultiset_map_disj_union, gmultiset_map_singleton.
  destruct (add_rendered_field self && negb (abstract c));
    now rewrite ?gmultiset_map_singleton, ?gmultiset_map_empty.
Qed.

(** C2, as the claim states it, fails for a field created with
    [no_rendered_field=True]: the class gets the raw column and no
    column [_content_rendered]. *)
Lemma frozen_field_contributes_one_column :
  columns Samples.frozen_contributed.2 = {[+ "content" +]}
  /\ ("_content_rendered" ∉ columns Samples.frozen_contributed.2)
  /\ ~ (columns Samples.frozen_contributed.2
        = {[+ "content"; _rendered_field_name "content" +]}
          ⊎ columns (empty_class false)).
Proof.
  unfold Samples.frozen_contributed.
  rewrite columns_contribute_to_class, columns_empty_class.
  change (add_rendered_field (MarkupTextField_init (Some true))
          && negb (abstract (empty_class false))) with false.
  cbv iota. rewrite !(right_id_L ∅ (⊎)).
  split; [reflexivity | split].
  - intros H. apply gmultiset_elem_of_singleton in H. discriminate.
  - intros E. apply (f_equal (multiplicity "_content_rendered")) in E.
    rewrite multiplicity_disj_union in E.
    rewrite multiplicity_singleton_ne in E by discriminate.
    rewrite multiplicity_singleton_eq in E. discriminate.
Qed.

(** C2, amended: when [add_rendered_field] is true and the class is not
    abstract, the field contributes two columns: the raw column under its
    own name and the rendered text column [_<name>_rendered]; when the
    flag is false or the class is abstract it contributes the raw column
    only.  Nothing is said of the order of the columns. *)
Theorem contribute_to_class_columns (self : MarkupTextField) (c : ModelClass)
    (n : string) :
  let self' := (contribute_to_class self c n).1 in
  let c' := (contribute_to_class self c n).2 in
  (add_rendered_field self = true -> abstract c = false ->
     local_fields c'
     = {[+ (n, MarkupField self');
           (_rendered_field_name n, TextField false true true) +]}
       ⊎ local_fields c
     /\ columns c' = {[+ n; _rendered_field_name n +]} ⊎ columns c)
  /\ (add_rendered_field self = false \/ abstract c = true ->
       local_fields c' = {[+ (n, MarkupField self') +]} ⊎ local_fields c
       /\ columns c' = {[+ n +]} ⊎ columns c).
Proof.
  intros self' c'. subst self' c'.
  rewrite contribute_to_class_local_fields, columns_contribute_to_class,
    contribute_to_class_field.
  split.
  - intros -> ->. simpl. now rewrite !(assoc_L (⊎)).
  - intros H.
    assert (add_rendered_field self && negb (abstract c) = false) as ->.
    { destruct H as [-> | ->]; [reflexivity | apply andb_false_r]. }
    now rewrite !(left_id_L ∅ (⊎)).
Qed.

Lemma contribute_to_class_columns_witness :
  columns Samples.Post
  = {[+ "content"; "_content_rendered" +]} ⊎ columns (empty_class false)
  /\ columns Samples.frozen_contributed.2
     = {[+ "content" +]} ⊎ columns (empty_class false).
Proof.
  split.
  - apply (contribute_to_class_columns
             (MarkupTextField_init None) (empty_class false) "content");
      reflexivity.
  - apply (contribute_to_class_columns
             (MarkupTextField_init (Some true)) (empty_class false) "content").
    left. reflexivity.
Defined.

(** *** Loading *)

(** C6: when the setting is absent, or names a module whose import
    raises ImportError, loading the module stops with
    ImproperlyConfigured; so it does when the module has no attribute of
    the name given. *)
Theorem load_render_func_ImproperlyConfigured
    (import_module : string -> result (gmap string pyfunc))
    (gettext : string -> string) (str_setting : string * kwargs -> string)
    (st : settings) :
  let load := load_render_func import_module gettext str_setting st in
  (MACHINA_MARKUP_LANGUAGE st = None -> is_ImproperlyConfigured load = true)
  /\ (forall dotted_path kw module func,
        MACHINA_MARKUP_LANGUAGE st = Some (dotted_path, kw) ->
        rsplit_dot dotted_path = [module; func] ->
        (exists msg, import_module module = Raise (ImportError msg))
        \/ (exists m, import_module module = Ok m /\ m !! func = None) ->
        is_ImproperlyConfigured load = true).
Proof.
  intros load. subst load. unfold load_render_func, settings_getattr. split.
  - intros ->. reflexivity.
  - intros dotted_path kw module func -> Hsplit H. rewrite bind_Ok. simpl.
    unfold _get_render_function. rewrite Hsplit.
    destruct H as [[msg ->] | (m & -> & Hm)].
    + reflexivity.
    + rewrite bind_Ok, Hm. reflexivity.
Qed.

Lemma load_render_func_ImproperlyConfigured_witness :
  load_render_func Samples.import_module Samples.gettext Samples.str_setting
    (mkSettings None)
  = Raise (ImproperlyConfigured "MACHINA_MARKUP_LANGUAGE setting is required")
  /\ is_ImproperlyConfigured
       (load_render_func Samples.import_module Samples.gettext Samples.str_setting
          (mkSettings (Some ("nowhere.render", [])))) = true
  /\ is_ImproperlyConfigured
       (load_render_func Samples.import_module Samples.gettext Samples.str_setting
          (mkSettings (Some ("markdown2.render", [])))) = true.
Proof.
  split; [reflexivity | split].
  - apply (load_render_func_ImproperlyConfigured _ _ _
             (mkSettings (Some ("nowhere.render", []))))
      with (dotted_path := "nowhere.render") (kw := [])
           (module := "nowhere") (func := "render");
      [reflexivity | reflexivity |].
    left. eexists. reflexivity.
  - apply (load_render_func_ImproperlyConfigured _ _ _
             (mkSettings (Some ("markdown2.render", []))))
      with (dotted_path := "markdown2.render") (kw := [])
           (module := "markdown2") (func := "render");
      [reflexivity | reflexivity |].
    right. eexists. split; reflexivity.
Defined.

End MarkupFacts.

(** ** Properties of the extended image field *)

Module ImageFacts.
Import Image.

Lemma truthy_Some (n : Z) : n <> 0 -> truthy (Some n) = true.
Proof. intros H. simpl. now apply negb_true_iff, Z.eqb_neq. Qed.

Lemma truthy_unset (o : option Z) : unset o <-> truthy o = false.
Proof.
  unfold unset. split.
  - intros [-> | ->]; reflexivity.
  - destruct o as [n|]; simpl; [|now left].
    intros H. apply negb_false_iff, Z.eqb_eq in H. subst. now right.
Qed.

Lemma outside_true (lo x hi : Z) : x < lo \/ hi < x -> outside lo x hi = true.
Proof.
  intros H. unfold outside. apply negb_true_iff, andb_false_iff.
  destruct H; [left; apply Z.leb_gt | right; apply Z.leb_gt]; assumption.
Qed.

Lemma outside_false (lo x hi : Z) : lo <= x <= hi -> outside lo x hi = false.
Proof.
  intros [H1 H2]. unfold outside. apply negb_false_iff, andb_true_iff.
  split; apply Z.leb_le; assumption.
Qed.

Lemma bind_Ok_unit {B : Type} (k : result B) : (_ ← Ok tt; k) = k.
Proof. reflexivity. Qed.

Lemma bind_ValidationError {A B : Type} (m : result A) (k : A -> result B) :
  is_ValidationError m = true -> is_ValidationError (x ← m; k x) = true.
Proof. destruct m as [a|[]]; simpl; congruence. Qed.

Section Checks.

Context (super_clean : FieldFile -> result FieldFile)
        (get_image_dimensions : FieldFile -> Z * Z)
        (filesizeformat : Z -> string)
        (gettext : string -> string).

Local Abbreviation clean :=
  (clean super_clean get_image_dimensions filesizeformat gettext).
Local Abbreviation check_upload_size := (check_upload_size filesizeformat gettext).
Local Abbreviation check_width := (check_width gettext).
Local Abbreviation check_height := (check_height gettext).

(** The checks either pass or raise a ValidationError. *)
Lemma check_upload_size_cases (self : ExtendedImageField) (image : File) :
  check_upload_size self image = Ok tt
  \/ is_ValidationError (check_upload_size self image) = true.
Proof.
  unfold Image.check_upload_size.
  repeat match goal with |- context [if ?b then _ else _] => destruct b end;
    auto.
Qed.

Lemma check_width_cases (self : ExtendedImageField) (w : Z) :
  check_width self w = Ok tt
  \/ is_ValidationError (check_width self w) = true.
Proof. unfold Image.check_width. destruct (_ && _ && _); auto. Qed.

Lemma check_width_skipped (self : ExtendedImageField) (w : Z) :
  unset (min_width self) \/ unset (max_width self) ->
  check_width self w = Ok tt.
Proof.
  intros H. unfold Image.check_width.
  destruct H as [H | H]; apply truthy_unset in H; rewrite H;
    rewrite ?andb_false_r; reflexivity.
Qed.

Lemma check_height_skipped (self : ExtendedImageField) (h : Z) :
  unset (min_height self) \/ unset (max_height self) ->
  check_height self h = Ok tt.
Proof.
  intros H. unfold Image.check_height.
  destruct H as [H | H]; apply truthy_unset in H; rewrite H;
    rewrite ?andb_false_r; reflexivity.
Qed.

Lemma check_width_outside (self : ExtendedImageField) (lo hi w : Z) :
  min_width self = Some lo -> max_width self = Some hi ->
  lo <> 0 -> hi <> 0 -> w < lo \/ hi < w ->
  is_ValidationError (check_width self w) = true.
Proof.
  intros Hlo Hhi Hlo0 Hhi0 Hout. unfold Image.check_width.
  rewrite Hlo, Hhi, !truthy_Some by assumption. simpl.
  now rewrite outside_true.
Qed.

Lemma check_height_outside (self : ExtendedImageField) (lo hi h : Z) :
  min_height self = Some lo -> max_height self = Some hi ->
  lo <> 0 -> hi <> 0 -> h < lo \/ hi < h ->
  is_ValidationError (check_height self h) = true.
Proof.
  intros Hlo Hhi Hlo0 Hhi0 Hout. unfold Image.check_height.
  rewrite Hlo, Hhi, !truthy_Some by assumption. simpl.
  now rewrite outside_true.
Qed.

Lemma check_width_inside (self : ExtendedImageField) (w : Z) :
  (forall lo hi, min_width self = Some lo -> max_width self = Some hi ->
                 lo <> 0 -> hi <> 0 -> lo <= w <= hi) ->
  check_width self w = Ok tt.
Proof.
  intros H. unfold Image.check_width.
  destruct (min_width self) as [lo|]; [|reflexivity].
  destruct (max_width self) as [hi|]; [|now rewrite andb_false_r].
  destruct (Z.eq_dec lo 0) as [->|Hlo]; [reflexivity|].
  destruct (Z.eq_dec hi 0) as [->|Hhi]; [now rewrite andb_false_r|].
  rewrite outside_false by now apply H.
  now rewrite andb_false_r.
Qed.

Lemma check_height_inside (self : ExtendedImageField) (h : Z) :
  (forall lo hi, min_height self = Some lo -> max_height self = Some hi ->
                 lo <> 0 -> hi <> 0 -> lo <= h <= hi) ->
  check_height self h = Ok tt.
Proof.
  intros H. unfold Image.check_height.
  destruct (min_height self) as [lo|]; [|reflexivity].
  destruct (max_height self) as [hi|]; [|now rewrite andb_false_r].
  destruct (Z.eq_dec lo 0) as [->|Hlo]; [reflexivity|].
  destruct (Z.eq_dec hi 0) as [->|Hhi]; [now rewrite andb_false_r|].
  rewrite outside_false by now apply H.
  now rewrite andb_false_r.
Qed.

(** [clean] in terms of its three checks. *)
Lemma clean_unfold (self : ExtendedImageField) (value data : FieldFile) :
  super_clean value = Ok data ->
  clean self value
  = (_ ← check_upload_size self (file data);
     _ ← check_width self (get_image_dimensions data).1;
     _ ← check_height self (get_image_dimensions data).2;
     Ok data).
Proof.
  intros H. unfold Image.clean. rewrite H. simpl.
  destruct (get_image_dimensions data). reflexivity.
Qed.

(** C4: with a positive [max_upload_size] and a file that has a [size],
    [clean] raises a ValidationError when the size is greater than the
    maximum; when it is not, the size check passes. *)
Theorem clean_upload_size (self : ExtendedImageField) (value data : FieldFile)
    (m sz : Z) :
  super_clean value = Ok data ->
  max_upload_size self = Some m ->
  0 < m ->
  size (file data) = Some sz ->
  (m < sz -> is_ValidationError (clean self value) = true)
  /\ (sz <= m -> check_upload_size self (file data) = Ok tt).
Proof.
  intros Hsuper Hmax Hpos Hsize.
  assert (Hguard : truthy (max_upload_size self)
                   && bool_decide (is_Some (size (file data))) = true).
  { rewrite Hmax, Hsize, truthy_Some by lia.
    rewrite bool_decide_eq_true_2 by eauto. reflexivity. }
  split; intros Hcmp.
  - rewrite (clean_unfold _ _ _ Hsuper). unfold Image.check_upload_size.
    rewrite Hguard, Hmax, Hsize. simpl.
    destruct (Z.gtb_spec sz m) as [_|Hle]; [reflexivity | lia].
  - unfold Image.check_upload_size. rewrite Hguard, Hmax, Hsize. simpl.
    destruct (Z.gtb_spec sz m) as [Hgt|_]; [lia | reflexivity].
Qed.

(** C5, amended: a range is configured when both its ends are set to
    values other than zero.  [clean] raises a ValidationError when the
    width lies outside the configured range from [min_width] to
    [max_width], or the height outside the configured range from
    [min_height] to [max_height]; an image whose width and height lie
    within every configured range is returned unchanged when its file
    passes the upload-size check. *)
Theorem clean_dimensions (self : ExtendedImageField) (value data : FieldFile)
    (w h : Z) :
  super_clean value = Ok data ->
  get_image_dimensions data = (w, h) ->
  (forall lo hi, min_width self = Some lo -> max_width self = Some hi ->
                 lo <> 0 -> hi <> 0 -> w < lo \/ hi < w ->
                 is_ValidationError (clean self value) = true)
  /\ (forall lo hi, min_height self = Some lo -> max_height self = Some hi ->
                    lo <> 0 -> hi <> 0 -> h < lo \/ hi < h ->
                    is_ValidationError (clean self value) = true)
  /\ (check_upload_size self (file data) = Ok tt ->
      (forall lo hi, min_width self = Some lo -> max_width self = Some hi ->
                     lo <> 0 -> hi <> 0 -> lo <= w <= hi) ->
      (forall lo hi, min_height self = Some lo -> max_height self = Some hi ->
                     lo <> 0 -> hi <> 0 -> lo <= h <= hi) ->
      clean self value = Ok data).
Proof.
  intros Hsuper Hdims. rewrite (clean_unfold _ _ _ Hsuper), Hdims. simpl.
  split; [|split].
  - intros lo hi Hlo Hhi Hlo0 Hhi0 Hout.
    destruct (check_upload_size_cases self (file data)) as [-> | Hs];
      [rewrite bind_Ok_unit | now apply bind_ValidationError].
    apply bind_ValidationError. eauto using check_width_outside.
  - intros lo hi Hlo Hhi Hlo0 Hhi0 Hout.
    destruct (check_upload_size_cases self (file data)) as [-> | Hs];
      [rewrite bind_Ok_unit | now apply bind_ValidationError].
    destruct (check_width_cases self w) as [-> | Hw];
      [rewrite bind_Ok_unit | now apply bind_ValidationError].
    apply bind_ValidationError. eauto using check_height_outside.
  - intros Hs Hw Hh.
    rewrite Hs, (check_width_inside _ _ Hw), (check_height_inside _ _ Hh).
    reflexivity.
Qed.

End Checks.

(** *** The theorems on the sample uploads *)

Lemma clean_upload_size_witness :
  is_ValidationError
    (clean ImageSamples.super_clean ImageSamples.get_image_dimensions
       ImageSamples.filesizeformat ImageSamples.gettext
       ImageSamples.avatar_field ImageSamples.heavy) = true
  /\ check_upload_size ImageSamples.filesizeformat ImageSamples.gettext
       ImageSamples.avatar_field (file ImageSamples.small) = Ok tt.
Proof.
  split.
  - apply (clean_upload_size ImageSamples.super_clean
             ImageSamples.get_image_dimensions ImageSamples.filesizeformat
             ImageSamples.gettext ImageSamples.avatar_field
             ImageSamples.heavy ImageSamples.heavy 10 20);
      [reflexivity | reflexivity | lia | reflexivity | lia].
  - apply (clean_upload_size ImageSamples.super_clean
             ImageSamples.get_image_dimensions ImageSamples.filesizeformat
             ImageSamples.gettext ImageSamples.avatar_field
             ImageSamples.small ImageSamples.small 10 2);
      [reflexivity | reflexivity | lia | reflexivity | lia].
Defined.

(** C5, as the claim states it, fails twice.  An image whose dimensions
    are within the bounds and whose file is larger than
    [max_upload_size] is not returned: [clean] raises.  And with
    [min_width] set to zero, an image wider than [max_width] is returned:
    a zero end leaves the range without effect. *)
Lemma clean_rejects_heavy_file_within_bounds :
  (ImageSamples.get_image_dimensions ImageSamples.wide = (200, 50)
   /\ min_width ImageSamples.zero_min_field = Some 0
   /\ max_width ImageSamples.zero_min_field = Some 100
   /\ clean ImageSamples.super_clean ImageSamples.get_image_dimensions
        ImageSamples.filesizeformat ImageSamples.gettext
        ImageSamples.zero_min_field ImageSamples.wide
      = Ok ImageSamples.wide)
  /\ ImageSamples.get_image_dimensions ImageSamples.heavy = (50, 50)
  /\ min_width ImageSamples.avatar_field = Some 2
  /\ max_width ImageSamples.avatar_field = Some 100
  /\ min_height ImageSamples.avatar_field = Some 2
  /\ max_height ImageSamples.avatar_field = Some 100
  /\ clean ImageSamples.super_clean ImageSamples.get_image_dimensions
       ImageSamples.filesizeformat ImageSamples.gettext
       ImageSamples.avatar_field ImageSamples.heavy
     = Raise (ValidationError
                "Files of size greater than 10 bytes are not allowed. Your file is 20 bytes")
  /\ clean ImageSamples.super_clean ImageSamples.get_image_dimensions
       ImageSamples.filesizeformat ImageSamples.gettext
       ImageSamples.avatar_field ImageSamples.heavy
     <> Ok ImageSamples.heavy.
Proof.
  repeat split; try (vm_compute; reflexivity).
  vm_compute. discriminate.
Qed.

Lemma clean_dimensions_witness :
  is_ValidationError
    (clean ImageSamples.super_clean ImageSamples.get_image_dimensions
       ImageSamples.filesizeformat ImageSamples.gettext
       ImageSamples.avatar_field ImageSamples.wide) = true
  /\ clean ImageSamples.super_clean ImageSamples.get_image_dimensions
       ImageSamples.filesizeformat ImageSamples.gettext
       ImageSamples.avatar_field ImageSamples.small
     = Ok ImageSamples.small
  /\ clean ImageSamples.super_clean ImageSamples.get_image_dimensions
       ImageSamples.filesizeformat ImageSamples.gettext
       ImageSamples.zero_min_field ImageSamples.wide
     = Ok ImageSamples.wide.
Proof.
  split; [|split].
  3: { refine (proj2 (proj2 (clean_dimensions ImageSamples.super_clean
                 ImageSamples.get_image_dimensions ImageSamples.filesizeformat
                 ImageSamples.gettext ImageSamples.zero_min_field
                 ImageSamples.wide ImageSamples.wide 200 50 _ _)) _ _ _);
         try reflexivity.
       - intros lo hi Hlo _ Hlo0 _. vm_compute in Hlo.
         injection Hlo as <-. now contradiction Hlo0.
       - intros lo hi Hlo. vm_compute in Hlo. discriminate. }
  - refine (proj1 (clean_dimensions ImageSamples.super_clean
              ImageSamples.get_image_dimensions ImageSamples.filesizeformat
              ImageSamples.gettext ImageSamples.avatar_field
              ImageSamples.wide ImageSamples.wide 200 50 _ _) 2 100 _ _ _ _ _);
      try reflexivity; lia.
  - refine (proj2 (proj2 (clean_dimensions ImageSamples.super_clean
              ImageSamples.get_image_dimensions ImageSamples.filesizeformat
              ImageSamples.gettext ImageSamples.avatar_field
              ImageSamples.small ImageSamples.small 50 50 _ _)) _ _ _);
      try reflexivity.
    + intros lo hi Hlo Hhi _ _. vm_compute in Hlo, Hhi.
      injection Hlo as <-. injection Hhi as <-. lia.
    + intros lo hi Hlo Hhi _ _. vm_compute in Hlo, Hhi.
      injection Hlo as <-. injection Hhi as <-. lia.
Defined.

(** *** Bounds with one end only *)

(** C8: when [min_width] or [max_width] is unset ([None] or zero) the
    width check passes for every width and the outcome of [clean] does
    not depend on the width of the image; likewise for the height when
    [min_height] or [max_height] is unset. *)
Theorem clean_skips_half_configured_bounds
    (super_clean : FieldFile -> result FieldFile)
    (dimensions dimensions' : FieldFile -> Z * Z)
    (filesizeformat : Z -> string) (gettext : string -> string)
    (self : ExtendedImageField) (value : FieldFile) :
  (unset (min_width self) \/ unset (max_width self) ->
     (forall w, check_width gettext self w = Ok tt)
     /\ ((forall d, (dimensions d).2 = (dimensions' d).2) ->
         clean super_clean dimensions filesizeformat gettext self value
         = clean super_clean dimensions' filesizeformat gettext self value))
  /\ (unset (min_height self) \/ unset (max_height self) ->
       (forall h, check_height gettext self h = Ok tt)
       /\ ((forall d, (dimensions d).1 = (dimensions' d).1) ->
           clean super_clean dimensions filesizeformat gettext self value
           = clean super_clean dimensions' filesizeformat gettext self value)).
Proof.
  split; intros Hunset; (split; [intros x; auto using check_width_skipped,
                                   check_height_skipped |]); intros Hsame.
  - destruct (super_clean value) as [data|e] eqn:Hsuper.
    + rewrite !(clean_unfold _ _ _ _ _ _ _ Hsuper).
      rewrite !check_width_skipped by assumption. now rewrite Hsame.
    + unfold clean. now rewrite Hsuper.
  - destruct (super_clean value) as [data|e] eqn:Hsuper.
    + rewrite !(clean_unfold _ _ _ _ _ _ _ Hsuper).
      rewrite !check_height_skipped by assumption. now rewrite Hsame.
    + unfold clean. now rewrite Hsuper.
Qed.

Lemma clean_skips_half_configured_bounds_witness :
  check_width ImageSamples.gettext ImageSamples.half_field 1 = Ok tt
  /\ check_height ImageSamples.gettext ImageSamples.half_field 100000 = Ok tt
  /\ clean ImageSamples.super_clean
       (fun d => (1, (ImageSamples.get_image_dimensions d).2))
       ImageSamples.filesizeformat ImageSamples.gettext
       ImageSamples.half_field ImageSamples.small
     = clean ImageSamples.super_clean ImageSamples.get_image_dimensions
         ImageSamples.filesizeformat ImageSamples.gettext
         ImageSamples.half_field ImageSamples.small.
Proof.
  pose proof (clean_skips_half_configured_bounds ImageSamples.super_clean
                (fun d => (1, (ImageSamples.get_image_dimensions d).2))
                ImageSamples.get_image_dimensions
                ImageSamples.filesizeformat ImageSamples.gettext
                ImageSamples.half_field ImageSamples.small) as [Hw Hh].
  destruct Hw as [Hw1 Hw2]; [right; left; reflexivity|].
  destruct Hh as [Hh1 _]; [right; left; reflexivity|].
  split; [apply Hw1 | split; [apply Hh1 |]].
  apply Hw2. intros d. reflexivity.
Defined.

End ImageFacts.

(** ** Properties of the string operations *)

Module PyFacts.

(** The characters of a string, as a list. *)
Local Abbreviation chars := list_ascii_of_string.

Lemma chars_append (s t : string) : chars (s +:+ t) = (chars s ++ chars t)%list.
Proof. induction s as [|a s IH]; simpl; [reflexivity | now rewrite IH]. Qed.

Lemma take_drop (n : nat) (s : string) : take n s +:+ drop n s = s.
Proof.
  revert s. induction n as [|n IH]; intros [|a s]; try reflexivity.
  change (String a (take n s +:+ drop n s) = String a s).
  f_equal. apply IH.
Qed.

Lemma take_chars (c : ascii) (n : nat) (s : string) :
  In c (chars (take n s)) -> In c (chars s).
Proof.
  revert s. induction n as [|n IH]; intros [|a s]; simpl; try tauto.
  intros [H | H]; [now left | right; now apply IH].
Qed.

Lemma rfind_None (c : ascii) (s : string) :
  rfind c s = None <-> ~ In c (chars s).
Proof.
  induction s as [|a s IH]; simpl.
  - tauto.
  - destruct (rfind c s) as [i|].
    + split; [discriminate|]. intros H. exfalso. apply H. right.
      destruct (in_dec ascii_dec c (chars s)) as [Hin|Hout]; [exact Hin|].
      apply IH in Hout. discriminate.
    + destruct (Ascii.eqb_spec a c) as [->|Hne].
      * split; [discriminate|]. intros H. exfalso. apply H. now left.
      * split; [|reflexivity]. intros _ [H | H]; [congruence|].
        now apply (proj1 IH).
Qed.

Lemma rfind_Some (c : ascii) (s : string) (i : nat) :
  rfind c s = Some i ->
  s = take i s +:+ String c (drop (S i) s)
  /\ ~ In c (chars (drop (S i) s)).
Proof.
  revert i. induction s as [|a s IH]; intros i; simpl; [discriminate|].
  destruct (rfind c s) as [j|] eqn:E.
  - intros [= <-]. destruct (IH j eq_refl) as [Hs Hno]. split; [|exact Hno].
    change (String a s = String a (take j s +:+ String c (drop (S j) s))).
    now rewrite <- Hs.
  - destruct (Ascii.eqb_spec a c) as [->|Hne]; [|discriminate].
    intros [= <-]. split.
    + destruct s; reflexivity.
    + apply rfind_None in E. destruct s; exact E.
Qed.

Lemma path_split_tail_no_slash (p : string) :
  ~ In "/"%char (chars (path_split_tail p)).
Proof.
  unfold path_split_tail. destruct (rfind "/" p) as [i|] eqn:E.
  - now apply rfind_Some in E.
  - now apply rfind_None.
Qed.

Lemma path_splitext_root_chars (c : ascii) (p : string) :
  In c (chars (path_splitext_root p)) -> In c (chars p).
Proof.
  unfold path_splitext_root. destruct (rfind "." p) as [i|]; [|tauto].
  destruct (has_other _ _ _ _); [apply take_chars | tauto].
Qed.

Lemma length_take (n : nat) (s : string) :
  String.length (take n s) = Nat.min n (String.length s).
Proof.
  revert s. induction n as [|n IH]; intros [|a s]; simpl; try reflexivity.
  now rewrite IH.
Qed.

Lemma take_all (n : nat) (s : string) :
  (String.length s <= n)%nat -> take n s = s.
Proof.
  revert s. induction n as [|n IH]; intros [|a s]; simpl; intros H;
    try reflexivity; try lia.
  f_equal. apply IH. lia.
Qed.

Lemma drop_chars (c : ascii) (n : nat) (s : string) :
  In c (chars (drop n s)) -> In c (chars s).
Proof.
  revert s. induction n as [|n IH]; intros [|a s]; simpl; try tauto.
  intros H. right. now apply IH.
Qed.

Lemma take_append_length (s t : string) : take (String.length s) (s +:+ t) = s.
Proof.
  induction s as [|a s IH]; [now destruct t|].
  change (String a (take (String.length s) (s +:+ t)) = String a s).
  now rewrite IH.
Qed.

Lemma drop_append_length (s t : string) : drop (String.length s) (s +:+ t) = t.
Proof.
  induction s as [|a s IH]; [now destruct t|]. exact IH.
Qed.

Lemma rfind_append (c : ascii) (s t : string) :
  ~ In c (chars t) -> rfind c (s +:+ String c t) = Some (String.length s).
Proof.
  intros Ht. apply rfind_None in Ht. induction s as [|a s IH].
  - change (rfind c (String c t) = Some O). simpl.
    now rewrite Ht, Ascii.eqb_refl.
  - change (rfind c (String a (s +:+ String c t)) = Some (S (String.length s))).
    simpl. now rewrite IH.
Qed.

Lemma has_other_prefix (c : ascii) (s t : string) :
  (exists a, In a (chars s) /\ a <> c) ->
  has_other c (s +:+ t) O (String.length s) = true.
Proof.
  induction s as [|a s IH]; intros (b & Hin & Hne); [destruct Hin|].
  change (has_other c (String a (s +:+ t)) O (S (String.length s)) = true).
  simpl. destruct (Ascii.eqb_spec a c) as [->|Hac]; [|reflexivity].
  apply IH. destruct Hin as [-> | Hin]; [congruence | eauto].
Qed.

Lemma path_split_tail_id (s : string) :
  ~ In "/"%char (chars s) -> path_split_tail s = s.
Proof. intros H. apply rfind_None in H. unfold path_split_tail. now rewrite H. Qed.

(** [os.path.splitext] cuts its argument in two. *)
Lemma path_splitext_root_ext (p : string) :
  path_splitext_root p +:+ path_splitext_ext p = p.
Proof.
  unfold path_splitext_root, path_splitext_ext.
  destruct (rfind "." p) as [i|].
  - destruct (has_other _ _ _ _); [apply take_drop|].
    clear. induction p as [|a p IH]; [reflexivity|].
    change (String a (p +:+ "") = String a p). now rewrite IH.
  - clear. induction p as [|a p IH]; [reflexivity|].
    change (String a (p +:+ "") = String a p). now rewrite IH.
Qed.

Lemma path_splitext_ext_chars (c : ascii) (p : string) :
  In c (chars (path_splitext_ext p)) -> In c (chars p).
Proof.
  unfold path_splitext_ext. destruct (rfind "." p) as [i|]; [|intros []].
  destruct (has_other _ _ _ _); [apply drop_chars | intros []].
Qed.

(** [os.path.splitext] on a name without directory that ends in [.png]
    and has a character other than a dot before it. *)
Lemma path_splitext_png (stem : string) :
  ~ In "/"%char (chars stem) ->
  (exists a, In a (chars stem) /\ a <> "."%char) ->
  path_splitext_root (stem +:+ ".png") = stem
  /\ path_splitext_ext (stem +:+ ".png") = ".png".
Proof.
  intros Hslash Hother.
  assert (Hdot : rfind "." (stem +:+ ".png") = Some (String.length stem)).
  { apply (rfind_append "." stem "png"). simpl.
    intros H. repeat (destruct H as [H|H]; [discriminate|]). exact H. }
  assert (Hsep : rfind "/" (stem +:+ ".png") = None).
  { apply rfind_None. rewrite chars_append. intros H.
    apply in_app_or in H as [H|H]; [tauto|]. simpl in H.
    repeat (destruct H as [H|H]; [discriminate|]). exact H. }
  unfold path_splitext_root, path_splitext_ext.
  rewrite Hdot, Hsep, (has_other_prefix "." stem ".png" Hother).
  split; [apply take_append_length | apply drop_append_length].
Qed.

(** X2: [rsplit_dot] splits at the last dot and loses nothing.  When it
    gives two parts, the string is the first part, a dot and the second
    part, and the second part has no dot; it gives the string alone
    exactly when the string has no dot. *)
Theorem rsplit_dot_round_trip (s : string) :
  (forall m f, rsplit_dot s = [m; f] ->
               s = m +:+ "." +:+ f /\ ~ In "."%char (chars f))
  /\ (rsplit_dot s = [s] <-> ~ In "."%char (chars s)).
Proof.
  unfold rsplit_dot. destruct (rfind "." s) as [i|] eqn:E.
  - apply rfind_Some in E. destruct E as [Hs Hno]. split.
    + intros m f [= <- <-]. split; assumption.
    + split; [discriminate|]. intros H. exfalso. apply H.
      rewrite Hs, chars_append. apply in_or_app. right. now left.
  - apply rfind_None in E. split; [discriminate|]. tauto.
Qed.

Lemma rsplit_dot_round_trip_witness :
  "markdown2.extras.render" = "markdown2.extras" +:+ "." +:+ "render"
  /\ ~ In "."%char (chars "render")
  /\ rsplit_dot "markdown" = ["markdown"].
Proof.
  destruct (rsplit_dot_round_trip "markdown2.extras.render") as [H _].
  destruct (H "markdown2.extras" "render" eq_refl) as [H1 H2].
  split; [exact H1 | split; [exact H2|]].
  apply (rsplit_dot_round_trip "markdown").
  simpl. intros H0. repeat (destruct H0 as [H0|H0]; [discriminate|]). exact H0.
Defined.

End PyFacts.

(** ** Further properties of the markup field *)

Module MarkupExtra.
Import Markup MarkupShape MarkupFacts.

Lemma append_suffix_inj (n m s : string) : n +:+ s = m +:+ s -> n = m.
Proof.
  revert m. induction n as [|a n IH]; intros [|b m] E.
  - reflexivity.
  - apply (f_equal String.length) in E.
    rewrite !length_append in E. simpl in E. lia.
  - apply (f_equal String.length) in E.
    rewrite !length_append in E. simpl in E. lia.
  - change (String a (n +:+ s) = String b (m +:+ s)) in E.
    injection E as -> E. f_equal. now apply IH.
Qed.

(** X1: the name of the rendered attribute determines the name of the
    field, so two fields with different names never share a rendered
    attribute; and it is never the name of the field itself. *)
Theorem _rendered_field_name_inj (n m : string) :
  (_rendered_field_name n = _rendered_field_name m -> n = m)
  /\ _rendered_field_name n <> n.
Proof.
  split; [|apply _rendered_field_name_ne].
  rewrite !_rendered_field_name_eq. intros E.
  change (String "_" (n +:+ "_rendered") = String "_" (m +:+ "_rendered")) in E.
  injection E as E. now apply append_suffix_inj in E.
Qed.

Lemma _rendered_field_name_inj_witness :
  "content" = "content" /\ _rendered_field_name "body" <> "body".
Proof.
  split.
  - apply (_rendered_field_name_inj "content" "content"). reflexivity.
  - apply (_rendered_field_name_inj "body" "body").
Defined.

Lemma rendered_name_inj (n m : string) :
  _rendered_field_name n = _rendered_field_name m -> n = m.
Proof.
  rewrite !_rendered_field_name_eq. intros E.
  change (String "_" (n +:+ "_rendered") = String "_" (m +:+ "_rendered")) in E.
  injection E as E. now apply append_suffix_inj in E.
Qed.

Lemma dict_setitem_idem (h : heap) (l : loc) (k : string) (v v' : val) :
  dict_setitem (dict_setitem h l k v) l k v' = dict_setitem h l k v'.
Proof.
  unfold dict_setitem. rewrite lookup_total_insert_eq. simpl.
  now rewrite !insert_insert_eq.
Qed.

Lemma carries_dict_setitem (h : heap) (l : loc) (f : MarkupTextField)
    (k : string) (v : val) :
  carries h l f -> carries (dict_setitem h l k v) l f.
Proof. unfold carries. now rewrite dict_setitem_cls. Qed.

Lemma carries_names (h : heap) (l : loc) (f g : MarkupTextField) :
  carries h l f -> carries h l g -> name f <> _rendered_field_name (name g).
Proof. intros (_ & Hf & _) (_ & _ & Hg) E. congruence. Qed.

Section Saving.

Context (render_func mark_safe : val -> val) (gettext : string -> string).

Local Abbreviation getattr := (getattr gettext).
Local Abbreviation setattr := (setattr mark_safe gettext).
Local Abbreviation attr_raw := (attr_raw gettext).
Local Abbreviation render_data := (render_data render_func mark_safe gettext).
Local Abbreviation send_pre_save := (send_pre_save render_func mark_safe gettext).
Local Abbreviation pre_save := (pre_save render_func mark_safe gettext).
Local Abbreviation _get_rendered := (_get_rendered mark_safe gettext).
Local Abbreviation _set_raw := (_set_raw mark_safe gettext).
Local Abbreviation get_db_prep_value := (get_db_prep_value gettext).
Local Abbreviation value_to_string := (value_to_string gettext).
Local Abbreviation rendered_of := (rendered_of render_func).

(** The wrapper that reading the field [f] of the instance [l] gives. *)
Local Abbreviation wrapper l f :=
  (mkMarkupText l (name f) (_rendered_field_name (name f))).

Lemma getattr_carried (h : heap) (l : loc) (f : MarkupTextField) (raw : val) :
  carries h l f ->
  dict (h !!! l) !! name f = Some raw ->
  getattr h l (name f)
  = Ok (match raw with VNone => VNone | _ => VMarkupText (wrapper l f) end).
Proof.
  intros (_ & Hd & _) Hraw. unfold Markup.getattr. rewrite Hd.
  now rewrite (descr_get_Some gettext _ _ _ raw).
Qed.

Lemma render_data_carried (h : heap) (l : loc) (f : MarkupTextField) (raw : val) :
  carries h l f ->
  dict (h !!! l) !! name f = Some raw ->
  render_data f h l
  = Ok (dict_setitem h l (_rendered_field_name (name f)) (rendered_of raw)).
Proof.
  intros Hc Hraw. pose proof Hc as (Hatt & Hd & Hplain).
  unfold Markup.render_data. rewrite Hatt, (getattr_carried _ _ _ _ Hc Hraw), bind_Ok.
  assert (Hw : attr_raw h (VMarkupText (wrapper l f)) = Ok raw).
  { simpl. unfold _get_raw, dict_getitem. simpl. now rewrite Hraw. }
  destruct raw; cbv beta iota;
    [ rewrite (hasattr_raw_false gettext) by reflexivity;
      rewrite !bind_Ok; now apply setattr_plain
    | rewrite (hasattr_raw_true gettext _ _ _ Hw), bind_Ok, Hw, !bind_Ok;
      now apply setattr_plain .. ].
Qed.

(** X3: saving twice is saving once.  On an instance that carries the
    field, [render_data] succeeds, and running it again on the store it
    leaves gives that same store. *)
Theorem render_data_idempotent (h : heap) (l : loc) (f : MarkupTextField)
    (raw : val) :
  carries h l f ->
  dict (h !!! l) !! name f = Some raw ->
  exists h1, render_data f h l = Ok h1 /\ render_data f h1 l = Ok h1.
Proof.
  intros Hc Hraw. eexists. split; [exact (render_data_carried _ _ _ _ Hc Hraw)|].
  rewrite (render_data_carried _ _ _ raw).
  - now rewrite dict_setitem_idem.
  - now apply carries_dict_setitem.
  - rewrite dict_setitem_other_key; [exact Hraw|].
    intros E. now apply _rendered_field_name_ne in E.
Qed.

(** X4: after a save, reading the field gives a wrapper whose [rendered]
    is [mark_safe] of the render function applied to the raw value, and
    whose [raw] is the raw value, which the save did not touch. *)
Theorem rendered_after_save (h : heap) (l : loc) (f : MarkupTextField)
    (raw : val) :
  carries h l f ->
  dict (h !!! l) !! name f = Some raw ->
  raw <> VNone ->
  exists h1 w,
    render_data f h l = Ok h1
    /\ getattr h1 l (name f) = Ok (VMarkupText w)
    /\ _get_rendered h1 w = Ok (mark_safe (render_func raw))
    /\ _get_raw h1 w = Ok raw.
Proof.
  intros Hc Hraw Hnone. pose proof Hc as (_ & _ & Hplain).
  exists (dict_setitem h l (_rendered_field_name (name f)) (rendered_of raw)),
         (wrapper l f).
  assert (Hraw1 : dict (dict_setitem h l (_rendered_field_name (name f))
                          (rendered_of raw) !!! l) !! name f = Some raw).
  { rewrite dict_setitem_other_key; [exact Hraw|].
    intros E. now apply _rendered_field_name_ne in E. }
  split; [exact (render_data_carried _ _ _ _ Hc Hraw) | split; [|split]].
  - rewrite (getattr_carried _ _ _ raw); [destruct raw; congruence | | exact Hraw1].
    now apply carries_dict_setitem.
  - unfold Markup._get_rendered. simpl.
    rewrite (getattr_plain gettext _ _ _ (rendered_of raw)).
    + destruct raw; first [congruence | reflexivity].
    + now rewrite dict_setitem_cls.
    + apply dict_setitem_same.
  - unfold _get_raw, dict_getitem. simpl. now rewrite Hraw1.
Qed.

(** X5: when the [__dict__] of the instance has no entry for the field,
    as for an instance loaded without it, reading the field raises
    KeyError, and so do [render_data] and [value_to_string]. *)
Theorem missing_field_raises_KeyError (h : heap) (l : loc) (f : MarkupTextField) :
  carries h l f ->
  dict (h !!! l) !! name f = None ->
  getattr h l (name f) = Raise (KeyError (name f))
  /\ render_data f h l = Raise (KeyError (name f))
  /\ value_to_string f h l = Raise (KeyError (name f)).
Proof.
  intros (Hatt & Hd & _) Hraw.
  assert (Hget : getattr h l (name f) = Raise (KeyError (name f))).
  { unfold Markup.getattr. rewrite Hd. unfold __get__, dict_getitem. simpl.
    now rewrite Hraw. }
  split; [exact Hget | split].
  - unfold Markup.render_data. now rewrite Hatt, Hget.
  - unfold Markup.value_to_string. now rewrite Hatt, Hget.
Qed.

(** X6: [value_to_string] gives the stored raw value when it is not
    [None]; when the stored raw value is [None] it raises AttributeError,
    because [None] has no [raw]. *)
Theorem value_to_string_raw_or_AttributeError (h : heap) (l : loc)
    (f : MarkupTextField) (raw : val) :
  carries h l f ->
  dict (h !!! l) !! name f = Some raw ->
  (raw <> VNone -> value_to_string f h l = Ok raw)
  /\ (raw = VNone -> is_AttributeError (value_to_string f h l) = true).
Proof.
  intros Hc Hraw. pose proof Hc as (Hatt & _ & _).
  unfold Markup.value_to_string.
  rewrite Hatt, (getattr_carried _ _ _ _ Hc Hraw), bind_Ok. split.
  - intros Hnone.
    assert (Hw : attr_raw h (VMarkupText (wrapper l f)) = Ok raw).
    { simpl. unfold _get_raw, dict_getitem. simpl. now rewrite Hraw. }
    destruct raw; first [congruence | exact Hw].
  - intros ->. reflexivity.
Qed.

(** X7: what goes to the database is the stored raw value:
    [get_db_prep_value] applied to what reading the field gives is the
    stored raw value, [None] included. *)
Theorem get_db_prep_value_of_read (h : heap) (l : loc) (f : MarkupTextField)
    (raw : val) :
  carries h l f ->
  dict (h !!! l) !! name f = Some raw ->
  exists value, getattr h l (name f) = Ok value
                /\ get_db_prep_value h value = Ok raw.
Proof.
  intros Hc Hraw. eexists. split; [exact (getattr_carried _ _ _ _ Hc Hraw)|].
  unfold Markup.get_db_prep_value. destruct raw; try reflexivity;
    simpl; unfold _get_raw, dict_getitem; simpl; now rewrite Hraw.
Qed.

(** X8: assigning a plain value to [raw] of a wrapper stores it in the
    instance: the wrapper then reads it back, its [rendered] is as
    before, and the instance still carries the field. *)
Theorem _set_raw_round_trip (h : heap) (l : loc) (f : MarkupTextField)
    (v : val) :
  carries h l f ->
  isinstance v C_MarkupText = false ->
  exists h1, _set_raw h (wrapper l f) v = Ok h1
             /\ _get_raw h1 (wrapper l f) = Ok v
             /\ _get_rendered h1 (wrapper l f) = _get_rendered h (wrapper l f)
             /\ carries h1 l f.
Proof.
  intros Hc Hinst. pose proof Hc as (_ & Hd & Hplain).
  exists (dict_setitem h l (name f) v). repeat split.
  - unfold Markup._set_raw, Markup.setattr. simpl. rewrite Hd.
    unfold __set__. now rewrite Hinst.
  - unfold _get_raw, dict_getitem. simpl. now rewrite dict_setitem_same.
  - unfold Markup._get_rendered, Markup.getattr. simpl.
    rewrite dict_setitem_cls, Hplain, dict_setitem_other_key; [reflexivity|].
    intros E. symmetry in E. now apply _rendered_field_name_ne in E.
  - apply Hc.
  - now rewrite dict_setitem_cls.
  - now rewrite dict_setitem_cls.
Qed.

Lemma send_pre_save_renders (fs : list MarkupTextField) (h : heap) (l : loc) :
  (forall f, f ∈ fs -> carries h l f /\ is_Some (dict (h !!! l) !! name f)) ->
  exists h',
    send_pre_save fs h l = Ok h'
    /\ (forall f raw, f ∈ fs -> dict (h !!! l) !! name f = Some raw ->
          dict (h' !!! l) !! _rendered_field_name (name f) = Some (rendered_of raw))
    /\ (forall k, (forall f, f ∈ fs -> k <> _rendered_field_name (name f)) ->
          dict (h' !!! l) !! k = dict (h !!! l) !! k)
    /\ cls (h' !!! l) = cls (h !!! l)
    /\ (forall l', l' <> l -> h' !!! l' = h !!! l').
Proof.
  revert h. induction fs as [|r fs IH]; intros h Hwf.
  - exists h. repeat split; try reflexivity.
    intros f raw Hin. now apply elem_of_nil in Hin.
  - destruct (Hwf r) as [Hcr [rawr Hrawr]]; [apply list_elem_of_here|].
    set (h1 := dict_setitem h l (_rendered_field_name (name r)) (rendered_of rawr)).
    assert (Hkeep : forall f, f ∈ r :: fs ->
              dict (h1 !!! l) !! name f = dict (h !!! l) !! name f).
    { intros f Hf. unfold h1. apply dict_setitem_other_key.
      intros E. symmetry in E. revert E.
      apply (carries_names h l); [now apply Hwf | exact Hcr]. }
    assert (Hwf1 : forall f, f ∈ fs ->
              carries h1 l f /\ is_Some (dict (h1 !!! l) !! name f)).
    { intros f Hf. destruct (Hwf f) as [Hcf Hs]; [now apply list_elem_of_further|].
      split; [now apply carries_dict_setitem|].
      rewrite Hkeep; [exact Hs | now apply list_elem_of_further]. }
    destruct (IH h1 Hwf1) as (h' & Hsend & Ha & Hb & Hc & Hd).
    exists h'. split.
    { simpl. rewrite (render_data_carried _ _ _ _ Hcr Hrawr), bind_Ok. exact Hsend. }
    split; [|split; [|split]].
    + intros f raw Hin Hraw. apply elem_of_cons in Hin as [-> | Hin].
      * destruct (decide (Exists (fun g => name g = name r) fs)) as [Hex | Hnex].
        -- apply Exists_exists in Hex as (g & Hg & Hname).
           rewrite <- Hname. apply Ha; [exact Hg|].
           rewrite Hkeep; [now rewrite Hname | now apply list_elem_of_further].
        -- rewrite Hb.
           ++ unfold h1. rewrite dict_setitem_same. congruence.
           ++ intros g Hg E. apply Hnex, Exists_exists. exists g.
              split; [exact Hg|]. symmetry. now apply rendered_name_inj.
      * apply Ha; [exact Hin|].
        rewrite Hkeep; [exact Hraw | now apply list_elem_of_further].
    + intros k Hk. rewrite Hb.
      * unfold h1. apply dict_setitem_other_key.
        intros E. apply (Hk r); [apply list_elem_of_here | now symmetry].
      * intros f Hf. apply Hk. now apply list_elem_of_further.
    + rewrite Hc. apply dict_setitem_cls.
    + intros l' Hl'. rewrite Hd by exact Hl'.
      apply dict_setitem_other_object. congruence.
Qed.



(** X9: the [pre_save] signal renders every markup field of the instance.
    When the instance carries each field connected for its class and
    stores a raw value for it, [pre_save] succeeds; afterwards each
    rendered attribute holds the rendered raw value of its field ([None]
    for a raw [None]), every other attribute is as before, and the other
    objects of the store are untouched. *)
Theorem pre_save_renders_every_field (h : heap) (l : loc) :
  (forall f, f ∈ pre_save_receivers (cls (h !!! l)) ->
             carries h l f /\ is_Some (dict (h !!! l) !! name f)) ->
  exists h',
    pre_save h l = Ok h'
    /\ (forall f raw, f ∈ pre_save_receivers (cls (h !!! l)) ->
          dict (h !!! l) !! name f = Some raw ->
          dict (h' !!! l) !! _rendered_field_name (name f) = Some (rendered_of raw))
    /\ (forall k, (forall f, f ∈ pre_save_receivers (cls (h !!! l)) ->
                              k <> _rendered_field_name (name f)) ->
          dict (h' !!! l) !! k = dict (h !!! l) !! k)
    /\ (forall l', l' <> l -> h' !!! l' = h !!! l').
Proof.
  intros Hwf.
  destruct (send_pre_save_renders _ h l Hwf) as (h' & Hsend & Ha & Hb & _ & Hd).
  exists h'. repeat split; assumption.
Qed.

(** X10: two markup fields contributed to a class that had no descriptor
    and no receiver are both rendered by a save.  The names must differ
    and neither may be the rendered name of the other. *)
Theorem two_fields_are_both_rendered (f1 f2 : MarkupTextField) (c : ModelClass)
    (n1 n2 : string) (h : heap) (l : loc) (raw1 raw2 : val) :
  class_descriptors c = ∅ ->
  pre_save_receivers c = [] ->
  n1 <> n2 ->
  n1 <> _rendered_field_name n2 ->
  n2 <> _rendered_field_name n1 ->
  cls (h !!! l)
  = (contribute_to_class f2 (contribute_to_class f1 c n1).2 n2).2 ->
  dict (h !!! l) !! n1 = Some raw1 ->
  dict (h !!! l) !! n2 = Some raw2 ->
  exists h',
    pre_save h l = Ok h'
    /\ dict (h' !!! l) !! _rendered_field_name n1 = Some (rendered_of raw1)
    /\ dict (h' !!! l) !! _rendered_field_name n2 = Some (rendered_of raw2)
    /\ dict (h' !!! l) !! n1 = Some raw1
    /\ dict (h' !!! l) !! n2 = Some raw2.
Proof.
  intros Hdescr Hrecv H12 H1r H2r Hcls Hraw1 Hraw2.
  set (g1 := set_attributes_from_name f1 n1).
  set (g2 := set_attributes_from_name f2 n2).
  assert (Hrs : pre_save_receivers (cls (h !!! l)) = [g1; g2]).
  { rewrite Hcls, !contribute_to_class_receivers, Hrecv. reflexivity. }
  assert (Hds : class_descriptors (cls (h !!! l))
                = <[n2 := MarkupTextDescriptor_init g2]>
                    (<[n1 := MarkupTextDescriptor_init g1]> ∅)).
  { rewrite Hcls. unfold contribute_to_class. simpl.
    destruct (add_rendered_field f1 && negb (abstract c)); simpl;
      destruct (add_rendered_field f2 && negb (abstract c)); simpl;
      now rewrite Hdescr. }
  assert (Hne1 := _rendered_field_name_ne n1).
  assert (Hne2 := _rendered_field_name_ne n2).
  assert (Hc1 : carries h l g1).
  { unfold carries. rewrite Hds. simpl. repeat split.
    - rewrite lookup_insert_ne by congruence. apply lookup_insert_eq.
    - rewrite !lookup_insert_ne by congruence. apply lookup_empty. }
  assert (Hc2 : carries h l g2).
  { unfold carries. rewrite Hds. simpl. repeat split.
    - apply lookup_insert_eq.
    - rewrite !lookup_insert_ne by congruence. apply lookup_empty. }
  destruct (send_pre_save_renders [g1; g2] h l) as (h' & Hsend & Ha & Hb & _ & _).
  { intros f Hf. apply elem_of_cons in Hf as [-> | Hf];
      [|apply list_elem_of_singleton in Hf as ->]; split; eauto. }
  exists h'. unfold Markup.pre_save. rewrite Hrs. split; [exact Hsend|].
  assert (Hin1 : g1 ∈ [g1; g2]) by apply list_elem_of_here.
  assert (Hin2 : g2 ∈ [g1; g2]) by (apply list_elem_of_further, list_elem_of_here).
  repeat split.
  - exact (Ha g1 raw1 Hin1 Hraw1).
  - exact (Ha g2 raw2 Hin2 Hraw2).
  - rewrite Hb; [exact Hraw1|]. intros f Hf.
    apply elem_of_cons in Hf as [-> | Hf];
      [|apply list_elem_of_singleton in Hf as ->]; simpl; congruence.
  - rewrite Hb; [exact Hraw2|]. intros f Hf.
    apply elem_of_cons in Hf as [-> | Hf];
      [|apply list_elem_of_singleton in Hf as ->]; simpl; congruence.
Qed.

(** X21: copying the field from one instance to another,
    [b.f = a.f].  When the raw value of [a] is not [None], [b] gets the
    raw value of [a] and [mark_safe] of the rendered value of [a], and [a]
    is untouched.  When the raw value of [a] is [None], what is assigned
    is [None] itself: the raw value of [b] becomes [None] and its rendered
    value stays as it was. *)
Theorem copy_between_instances (h : heap) (a b : loc) (f : MarkupTextField)
    (raw rendered : val) :
  carries h a f ->
  carries h b f ->
  a <> b ->
  dict (h !!! a) !! name f = Some raw ->
  dict (h !!! a) !! _rendered_field_name (name f) = Some rendered ->
  exists value h1,
    getattr h a (name f) = Ok value
    /\ setattr h b (name f) value = Ok h1
    /\ dict (h1 !!! b) !! name f = Some raw
    /\ dict (h1 !!! b) !! _rendered_field_name (name f)
       = match raw with
         | VNone => dict (h !!! b) !! _rendered_field_name (name f)
         | _ => Some (mark_safe rendered)
         end
    /\ h1 !!! a = h !!! a.
Proof.
  intros Ha Hb Hab Hraw Hrendered.
  pose proof Ha as (_ & _ & Hplain). pose proof Hb as (_ & Hd & _).
  assert (Hne : _rendered_field_name (name f) <> name f)
    by apply _rendered_field_name_ne.
  assert (Hw : _get_raw h (wrapper a f) = Ok raw).
  { unfold _get_raw, dict_getitem. simpl. now rewrite Hraw. }
  assert (Hr : _get_rendered (dict_setitem h b (name f) raw) (wrapper a f)
               = Ok (mark_safe rendered)).
  { unfold Markup._get_rendered. simpl.
    rewrite (getattr_plain gettext _ _ _ rendered); [reflexivity | |].
    - now rewrite dict_setitem_cls.
    - rewrite dict_setitem_other_object by congruence. exact Hrendered. }
  pose (h2 := dict_setitem (dict_setitem h b (name f) raw) b
                (_rendered_field_name (name f)) (mark_safe rendered)).
  assert (Hset : setattr h b (name f) (VMarkupText (wrapper a f)) = Ok h2).
  { unfold Markup.setattr. rewrite Hd. unfold __set__. simpl.
    rewrite Hw, bind_Ok, Hr. reflexivity. }
  assert (H2 : dict (h2 !!! b) !! name f = Some raw
               /\ dict (h2 !!! b) !! _rendered_field_name (name f)
                  = Some (mark_safe rendered)
               /\ h2 !!! a = h !!! a).
  { unfold h2. split; [|split].
    - rewrite dict_setitem_other_key by congruence. apply dict_setitem_same.
    - apply dict_setitem_same.
    - rewrite !dict_setitem_other_object by congruence. reflexivity. }
  rewrite (getattr_carried _ _ _ _ Ha Hraw).
  destruct raw;
    [ exists VNone, (dict_setitem h b (name f) VNone)
    | exists (VMarkupText (wrapper a f)), h2;
      split; [reflexivity | split; [exact Hset | exact H2]] .. ].
  split; [reflexivity|]. split.
  { unfold Markup.setattr. rewrite Hd. reflexivity. }
  split; [apply dict_setitem_same | split].
  - apply dict_setitem_other_key. congruence.
  - apply dict_setitem_other_object. congruence.
Qed.

End Saving.

(** *** The theorems on the sample stores *)

Ltac sample := repeat split; vm_compute; reflexivity.


Lemma render_data_idempotent_witness :
  exists h1,
    render_data Samples.render Samples.mark_safe Samples.gettext
      Samples.content_field Samples.store 1%nat = Ok h1
    /\ render_data Samples.render Samples.mark_safe Samples.gettext
         Samples.content_field h1 1%nat = Ok h1.
Proof.
  apply (render_data_idempotent Samples.render Samples.mark_safe Samples.gettext
           Samples.store 1%nat Samples.content_field (VStr "hello")); sample.
Defined.

Lemma rendered_after_save_witness :
  exists h1 w,
    render_data Samples.render Samples.mark_safe Samples.gettext
      Samples.content_field Samples.store 1%nat = Ok h1
    /\ getattr Samples.gettext h1 1%nat "content" = Ok (VMarkupText w)
    /\ _get_rendered Samples.mark_safe Samples.gettext h1 w
       = Ok (VSafeText "<p>hello</p>")
    /\ _get_raw h1 w = Ok (VStr "hello").
Proof.
  apply (rendered_after_save Samples.render Samples.mark_safe Samples.gettext
           Samples.store 1%nat Samples.content_field (VStr "hello"));
    [sample | sample | discriminate].
Defined.

Lemma missing_field_raises_KeyError_witness :
  getattr Samples.gettext Samples.deferred 3%nat "content"
  = Raise (KeyError "content")
  /\ render_data Samples.render Samples.mark_safe Samples.gettext
       Samples.content_field Samples.deferred 3%nat = Raise (KeyError "content")
  /\ value_to_string Samples.gettext Samples.content_field Samples.deferred 3%nat
     = Raise (KeyError "content").
Proof.
  apply (missing_field_raises_KeyError Samples.render Samples.mark_safe
           Samples.gettext Samples.deferred 3%nat Samples.content_field); sample.
Defined.

Lemma value_to_string_raw_or_AttributeError_witness :
  value_to_string Samples.gettext Samples.content_field Samples.store 1%nat
  = Ok (VStr "hello")
  /\ is_AttributeError
       (value_to_string Samples.gettext Samples.content_field Samples.store 2%nat)
     = true.
Proof.
  split.
  - apply (value_to_string_raw_or_AttributeError Samples.gettext
             Samples.store 1%nat Samples.content_field (VStr "hello"));
      [sample | sample | discriminate].
  - apply (value_to_string_raw_or_AttributeError Samples.gettext
             Samples.store 2%nat Samples.content_field VNone);
      [sample | sample | reflexivity].
Defined.

Lemma get_db_prep_value_of_read_witness :
  (exists value, getattr Samples.gettext Samples.store 1%nat "content" = Ok value
                 /\ get_db_prep_value Samples.gettext Samples.store value
                    = Ok (VStr "hello"))
  /\ (exists value, getattr Samples.gettext Samples.store 2%nat "content" = Ok value
                    /\ get_db_prep_value Samples.gettext Samples.store value
                       = Ok VNone).
Proof.
  split.
  - apply (get_db_prep_value_of_read Samples.gettext
             Samples.store 1%nat Samples.content_field (VStr "hello")); sample.
  - apply (get_db_prep_value_of_read Samples.gettext
             Samples.store 2%nat Samples.content_field VNone); sample.
Defined.

Lemma _set_raw_round_trip_witness :
  exists h1,
    _set_raw Samples.mark_safe Samples.gettext Samples.store Samples.wrapper1
      (VStr "edited") = Ok h1
    /\ _get_raw h1 Samples.wrapper1 = Ok (VStr "edited")
    /\ _get_rendered Samples.mark_safe Samples.gettext h1 Samples.wrapper1
       = Ok (VSafeText "<p>old</p>").
Proof.
  destruct (_set_raw_round_trip Samples.mark_safe Samples.gettext
              Samples.store 1%nat Samples.content_field (VStr "edited"))
    as (h1 & Hset & Hget & Hrendered & _); [sample | reflexivity |].
  exists h1. split; [exact Hset | split; [exact Hget|]].
  etransitivity; [exact Hrendered | vm_compute; reflexivity].
Defined.

Lemma pre_save_renders_every_field_witness :
  exists h',
    pre_save Samples.render Samples.mark_safe Samples.gettext Samples.articles 7%nat
    = Ok h'
    /\ dict (h' !!! 7%nat) !! "_title_rendered" = Some (VStr "<p>News</p>")
    /\ dict (h' !!! 7%nat) !! "_body_rendered" = Some VNone.
Proof.
  destruct (pre_save_renders_every_field Samples.render Samples.mark_safe
              Samples.gettext Samples.articles 7%nat)
    as (h' & Hsave & Ha & _).
  - intros f Hf.
    change (f ∈ [Samples.title_field; Samples.body_field]) in Hf.
    apply elem_of_cons in Hf as [-> | Hf];
      [|apply list_elem_of_singleton in Hf as ->];
      (split; [sample | eexists; vm_compute; reflexivity]).
  - exists h'. split; [exact Hsave | split].
    + apply (Ha Samples.title_field (VStr "News"));
        [apply list_elem_of_here | vm_compute; reflexivity].
    + apply (Ha Samples.body_field VNone);
        [apply list_elem_of_further, list_elem_of_here | vm_compute; reflexivity].
Defined.

Lemma two_fields_are_both_rendered_witness :
  exists h',
    pre_save Samples.render Samples.mark_safe Samples.gettext Samples.articles 7%nat
    = Ok h'
    /\ dict (h' !!! 7%nat) !! "_title_rendered" = Some (VStr "<p>News</p>")
    /\ dict (h' !!! 7%nat) !! "_body_rendered" = Some VNone
    /\ dict (h' !!! 7%nat) !! "title" = Some (VStr "News")
    /\ dict (h' !!! 7%nat) !! "body" = Some VNone.
Proof.
  apply (two_fields_are_both_rendered Samples.render Samples.mark_safe
           Samples.gettext (MarkupTextField_init None) (MarkupTextField_init None)
           (empty_class false) "title" "body" Samples.articles 7%nat
           (VStr "News") VNone);
    first [discriminate | vm_compute; reflexivity].
Defined.

Lemma copy_between_instances_witness :
  (exists value h1,
      getattr Samples.gettext Samples.store 1%nat "content" = Ok value
      /\ setattr Samples.mark_safe Samples.gettext Samples.store 2%nat "content" value
         = Ok h1
      /\ dict (h1 !!! 2%nat) !! "content" = Some (VStr "hello")
      /\ dict (h1 !!! 2%nat) !! "_content_rendered" = Some (VSafeText "<p>old</p>")
      /\ h1 !!! 1%nat = Samples.store !!! 1%nat)
  /\ (exists value h1,
        getattr Samples.gettext Samples.store 2%nat "content" = Ok value
        /\ setattr Samples.mark_safe Samples.gettext Samples.store 1%nat "content" value
           = Ok h1
        /\ dict (h1 !!! 1%nat) !! "content" = Some VNone
        /\ dict (h1 !!! 1%nat) !! "_content_rendered" = Some (VStr "<p>old</p>")
        /\ h1 !!! 2%nat = Samples.store !!! 2%nat).
Proof.
  split.
  - apply (copy_between_instances Samples.mark_safe Samples.gettext
             Samples.store 1%nat 2%nat Samples.content_field
             (VStr "hello") (VStr "<p>old</p>"));
      first [discriminate | sample].
  - apply (copy_between_instances Samples.mark_safe Samples.gettext
             Samples.store 2%nat 1%nat Samples.content_field VNone VNone);
      first [discriminate | sample].
Defined.

(** *** Loading the render function *)

(** X11: loading succeeds exactly when the setting is present, its dotted
    path splits at a dot into a module that can be imported and a name
    that the module defines; the render function is then that function
    with the keyword arguments of the setting. *)
Theorem load_render_func_Ok_iff
    (import_module : string -> result (gmap string pyfunc))
    (gettext : string -> string) (str_setting : string * kwargs -> string)
    (st : settings) (r : val -> val) :
  load_render_func import_module gettext str_setting st = Ok r <->
  exists dotted_path kw module func m f,
    MACHINA_MARKUP_LANGUAGE st = Some (dotted_path, kw)
    /\ rsplit_dot dotted_path = [module; func]
    /\ import_module module = Ok m
    /\ m !! func = Some f
    /\ r = curry f kw.
Proof.
  unfold load_render_func, settings_getattr, _get_render_function. split.
  - destruct (MACHINA_MARKUP_LANGUAGE st) as [[dotted_path kw]|];
      [|discriminate].
    rewrite bind_Ok. simpl.
    destruct (rsplit_dot dotted_path) as [|module [|func [|]]] eqn:Hsplit;
      try discriminate.
    destruct (import_module module) as [m|e] eqn:Himp;
      [|destruct e; discriminate].
    rewrite bind_Ok. destruct (m !! func) as [f|] eqn:Hf; [|discriminate].
    intros [= <-]. exists dotted_path, kw, module, func, m, f.
    repeat split; first [reflexivity | assumption].
  - intros (dotted_path & kw & module & func & m & f & -> & Hsplit & Himp & Hf & ->).
    rewrite bind_Ok. simpl. now rewrite Hsplit, Himp, bind_Ok, Hf.
Qed.

Lemma load_render_func_Ok_iff_witness :
  load_render_func Samples.import_module Samples.gettext Samples.str_setting
    (mkSettings (Some ("markdown2.markdown", [])))
  = Ok (curry (fun (_ : kwargs) (v : val) => Samples.render v) []).
Proof.
  apply load_render_func_Ok_iff.
  exists "markdown2.markdown", [], "markdown2", "markdown",
    {[ "markdown" := fun (_ : kwargs) (v : val) => Samples.render v ]},
    (fun (_ : kwargs) (v : val) => Samples.render v).
  repeat split; reflexivity.
Defined.

(** X12: whatever loading raises, it is never ImportError or
    AttributeError: both are turned into ImproperlyConfigured. *)
Theorem load_render_func_never_ImportError
    (import_module : string -> result (gmap string pyfunc))
    (gettext : string -> string) (str_setting : string * kwargs -> string)
    (st : settings) (e : exn) :
  load_render_func import_module gettext str_setting st = Raise e ->
  (forall msg, e <> ImportError msg) /\ (forall msg, e <> AttributeError msg).
Proof.
  unfold load_render_func, settings_getattr, _get_render_function.
  destruct (MACHINA_MARKUP_LANGUAGE st) as [[dotted_path kw]|].
  - rewrite bind_Ok. simpl.
    destruct (rsplit_dot dotted_path) as [|module [|func [|]]]; simpl;
      try (intros [= <-]; split; discriminate).
    destruct (import_module module) as [m|e'].
    + rewrite bind_Ok. destruct (m !! func); simpl; [discriminate|].
      intros [= <-]; split; discriminate.
    + destruct e'; simpl; intros [= <-]; split; discriminate.
  - simpl. intros [= <-]; split; discriminate.
Qed.

Lemma load_render_func_never_ImportError_witness :
  (forall msg, ImproperlyConfigured "MACHINA_MARKUP_LANGUAGE setting is required"
               <> ImportError msg)
  /\ (forall msg, ImproperlyConfigured "MACHINA_MARKUP_LANGUAGE setting is required"
                  <> AttributeError msg).
Proof.
  apply (load_render_func_never_ImportError Samples.import_module Samples.gettext
           Samples.str_setting (mkSettings None)).
  reflexivity.
Defined.

(** X13: a dotted path without a dot is not reported as a configuration
    error: unpacking the single part raises ValueError, which the [try]
    statement does not catch, whatever the import system holds. *)
Theorem load_render_func_undotted_path
    (import_module : string -> result (gmap string pyfunc))
    (gettext : string -> string) (str_setting : string * kwargs -> string)
    (st : settings) (dotted_path : string) (kw : kwargs) :
  MACHINA_MARKUP_LANGUAGE st = Some (dotted_path, kw) ->
  ~ In "."%char (list_ascii_of_string dotted_path) ->
  (exists msg, load_render_func import_module gettext str_setting st
               = Raise (ValueError msg))
  /\ is_ImproperlyConfigured
       (load_render_func import_module gettext str_setting st) = false.
Proof.
  intros Hst Hdot. apply PyFacts.rfind_None in Hdot.
  unfold load_render_func, settings_getattr, _get_render_function, rsplit_dot.
  rewrite Hst, bind_Ok. cbn [fst snd]. rewrite Hdot.
  simpl. split; [eexists|]; reflexivity.
Qed.

Lemma load_render_func_undotted_path_witness :
  (exists msg, load_render_func Samples.import_module Samples.gettext
                 Samples.str_setting (mkSettings (Some ("markdown", [])))
               = Raise (ValueError msg))
  /\ is_ImproperlyConfigured
       (load_render_func Samples.import_module Samples.gettext
          Samples.str_setting (mkSettings (Some ("markdown", [])))) = false.
Proof.
  apply (load_render_func_undotted_path Samples.import_module Samples.gettext
           Samples.str_setting (mkSettings (Some ("markdown", []))) "markdown" []);
    [reflexivity|].
  simpl. intros H. repeat (destruct H as [H|H]; [discriminate|]). exact H.
Defined.

End MarkupExtra.

(** ** Further properties of the extended image field *)

Module ImageExtra.
Import Image ImageFacts.

Lemma is_ValidationError_inv {A : Type} (r : result A) :
  is_ValidationError r = true -> exists msg, r = Raise (ValidationError msg).
Proof. destruct r as [a|[]]; simpl; try discriminate. eauto. Qed.

Lemma append_nonempty (s : string) (a : ascii) (t : string) :
  s +:+ String a t <> "".
Proof. destruct s; discriminate. Qed.

(** A check raised: the outcome is its ValidationError. *)
Ltac raised H :=
  let msg := fresh "msg" in
  apply is_ValidationError_inv in H as [msg ->]; simpl;
  repeat split;
  [ intros ? ?; discriminate
  | intros ? ?; right; exists msg; congruence
  | intros ? ?; discriminate ].

Section Checks.

Context (super_clean : FieldFile -> result FieldFile)
        (get_image_dimensions : FieldFile -> Z * Z)
        (filesizeformat : Z -> string)
        (gettext : string -> string).

Local Abbreviation clean :=
  (clean super_clean get_image_dimensions filesizeformat gettext).
Local Abbreviation check_upload_size := (check_upload_size filesizeformat gettext).
Local Abbreviation check_width := (check_width gettext).
Local Abbreviation check_height := (check_height gettext).
Local Abbreviation clean_unfold :=
  (clean_unfold super_clean get_image_dimensions filesizeformat gettext).

Lemma check_height_cases (self : ExtendedImageField) (h : Z) :
  check_height self h = Ok tt
  \/ is_ValidationError (check_height self h) = true.
Proof. unfold Image.check_height. destruct (_ && _ && _); auto. Qed.

(** X14: for a value that is an image (a file is behind it and its
    dimensions are integers), [clean] adds nothing of its own but
    ValidationError.  What it returns is what the framework's [clean]
    returned; what it raises is what the framework's [clean] raised, or a
    ValidationError; and an exception of the framework's [clean] always
    comes through. *)
Theorem clean_returns_or_ValidationError (self : ExtendedImageField)
    (value : FieldFile) :
  (forall data, clean self value = Ok data -> super_clean value = Ok data)
  /\ (forall e, clean self value = Raise e ->
                super_clean value = Raise e \/ exists msg, e = ValidationError msg)
  /\ (forall e, super_clean value = Raise e -> clean self value = Raise e).
Proof.
  destruct (super_clean value) as [d|e0] eqn:Hsuper.
  - rewrite (clean_unfold _ _ _ Hsuper).
    destruct (check_upload_size_cases filesizeformat gettext self (file d))
      as [-> | H1]; [rewrite bind_Ok_unit | raised H1].
    destruct (check_width_cases gettext self (get_image_dimensions d).1)
      as [-> | H2]; [rewrite bind_Ok_unit | raised H2].
    destruct (check_height_cases self (get_image_dimensions d).2)
      as [-> | H3]; [rewrite bind_Ok_unit | raised H3].
    repeat split; intros; first [congruence | discriminate].
  - unfold Image.clean. rewrite Hsuper. simpl.
    repeat split; intros; first [discriminate | left; congruence | congruence].
Qed.

(** X15: the checks report in the order of the source.  A file that is
    too large is reported with the message about the file size, whatever
    the dimensions of the image; when the size check passes, a width out
    of range is reported with the message about the width, whatever the
    height. *)
Theorem clean_reports_first_failure (self : ExtendedImageField)
    (value data : FieldFile) (w h : Z) :
  super_clean value = Ok data ->
  get_image_dimensions data = (w, h) ->
  (forall m sz, max_upload_size self = Some m -> m <> 0 ->
                size (file data) = Some sz -> m < sz ->
     clean self value
     = Raise (ValidationError
                (format (gettext "Files of size greater than {} are not allowed. Your file is {}")
                        [filesizeformat m; filesizeformat sz])))
  /\ (forall lo hi, check_upload_size self (file data) = Ok tt ->
                    min_width self = Some lo -> max_width self = Some hi ->
                    lo <> 0 -> hi <> 0 -> w < lo \/ hi < w ->
     clean self value
     = Raise (ValidationError
                (format (gettext "Images of width lesser than {}px or greater than {}px or are not allowed. The width of your image is {}px")
                        [pretty lo; pretty hi; pretty w]))).
Proof.
  intros Hsuper Hdims. rewrite (clean_unfold _ _ _ Hsuper), Hdims. simpl. split.
  - intros m sz Hmax Hm Hsize Hlt. unfold Image.check_upload_size.
    rewrite Hmax, Hsize, truthy_Some by assumption.
    rewrite bool_decide_eq_true_2 by eauto. simpl.
    destruct (Z.gtb_spec sz m) as [_|Hle]; [reflexivity | lia].
  - intros lo hi -> Hlo Hhi Hlo0 Hhi0 Hout. rewrite bind_Ok_unit.
    unfold Image.check_width.
    rewrite Hlo, Hhi, !truthy_Some by assumption. simpl.
    now rewrite outside_true.
Qed.

(** X16: a range whose lower end is above its upper end accepts no image:
    with [max_width] below [min_width], or [max_height] below
    [min_height] (all of them set), [clean] raises a ValidationError for
    every image. *)
Theorem clean_inverted_range_rejects_all (self : ExtendedImageField)
    (value data : FieldFile) (lo hi : Z) :
  super_clean value = Ok data ->
  lo <> 0 -> hi <> 0 -> hi < lo ->
  (min_width self = Some lo /\ max_width self = Some hi)
  \/ (min_height self = Some lo /\ max_height self = Some hi) ->
  is_ValidationError (clean self value) = true.
Proof.
  intros Hsuper Hlo0 Hhi0 Hinv Hrange. rewrite (clean_unfold _ _ _ Hsuper).
  destruct (check_upload_size_cases filesizeformat gettext self (file data))
    as [-> | Hs]; [rewrite bind_Ok_unit | now apply bind_ValidationError].
  destruct Hrange as [[Hlo Hhi] | [Hlo Hhi]].
  - apply bind_ValidationError.
    apply (check_width_outside gettext self lo hi); try assumption. lia.
  - destruct (check_width_cases gettext self (get_image_dimensions data).1)
      as [-> | Hw]; [rewrite bind_Ok_unit | now apply bind_ValidationError].
    apply bind_ValidationError.
    apply (check_height_outside gettext self lo hi); try assumption. lia.
Qed.

(** X17: the edges of the size check.  It passes when the file has no
    [size] attribute and when [max_upload_size] is unset; a negative
    [max_upload_size] counts as set, and then every file of a size of
    zero or more is refused. *)
Theorem check_upload_size_edges (self : ExtendedImageField) (image : File) :
  (size image = None -> check_upload_size self image = Ok tt)
  /\ (unset (max_upload_size self) -> check_upload_size self image = Ok tt)
  /\ (forall m sz, max_upload_size self = Some m -> m < 0 ->
                   size image = Some sz -> 0 <= sz ->
                   is_ValidationError (check_upload_size self image) = true).
Proof.
  unfold Image.check_upload_size. split; [|split].
  - intros ->. rewrite bool_decide_eq_false_2 by (intros [x Hx]; discriminate).
    now rewrite andb_false_r.
  - intros H. apply truthy_unset in H. now rewrite H.
  - intros m sz Hmax Hm Hsize Hsz.
    rewrite Hmax, Hsize, truthy_Some by lia.
    rewrite bool_decide_eq_true_2 by eauto. simpl.
    destruct (Z.gtb_spec sz m) as [_|Hle]; [reflexivity | lia].
Qed.

End Checks.

(** *** The theorems on the sample uploads *)

Lemma clean_returns_or_ValidationError_witness :
  ImageSamples.blank_clean ImageSamples.small = Ok ImageSamples.small
  /\ clean ImageSamples.blank_clean ImageSamples.get_image_dimensions
       ImageSamples.filesizeformat ImageSamples.gettext
       ImageSamples.avatar_field (mkFieldFile ImageSamples.nameless)
     = Raise (ValidationError "This field cannot be blank.")
  /\ (ImageSamples.blank_clean ImageSamples.wide
       = Raise (ValidationError
                  "Images of width lesser than 2px or greater than 100px or are not allowed. The width of your image is 200px")
      \/ exists msg,
           ValidationError
             "Images of width lesser than 2px or greater than 100px or are not allowed. The width of your image is 200px"
           = ValidationError msg).
Proof.
  split; [|split].
  - refine (proj1 (clean_returns_or_ValidationError ImageSamples.blank_clean
              ImageSamples.get_image_dimensions ImageSamples.filesizeformat
              ImageSamples.gettext ImageSamples.avatar_field ImageSamples.small)
              ImageSamples.small _).
    vm_compute. reflexivity.
  - refine (proj2 (proj2 (clean_returns_or_ValidationError
              ImageSamples.blank_clean
              ImageSamples.get_image_dimensions ImageSamples.filesizeformat
              ImageSamples.gettext ImageSamples.avatar_field
              (mkFieldFile ImageSamples.nameless))) _ _).
    reflexivity.
  - refine (proj1 (proj2 (clean_returns_or_ValidationError
              ImageSamples.blank_clean
              ImageSamples.get_image_dimensions ImageSamples.filesizeformat
              ImageSamples.gettext ImageSamples.avatar_field ImageSamples.wide))
              _ _).
    vm_compute. reflexivity.
Defined.

Lemma clean_reports_first_failure_witness :
  clean ImageSamples.super_clean (fun _ => (200, 1))
    ImageSamples.filesizeformat ImageSamples.gettext
    ImageSamples.avatar_field ImageSamples.heavy
  = Raise (ValidationError
             "Files of size greater than 10 bytes are not allowed. Your file is 20 bytes")
  /\ clean ImageSamples.super_clean (fun _ => (200, 1))
       ImageSamples.filesizeformat ImageSamples.gettext
       ImageSamples.avatar_field ImageSamples.small
     = Raise (ValidationError
                "Images of width lesser than 2px or greater than 100px or are not allowed. The width of your image is 200px").
Proof.
  split.
  - refine (proj1 (clean_reports_first_failure ImageSamples.super_clean
              (fun _ => (200, 1)) ImageSamples.filesizeformat ImageSamples.gettext
              ImageSamples.avatar_field ImageSamples.heavy ImageSamples.heavy
              200 1 _ _) 10 20 _ _ _ _); first [reflexivity | lia].
  - refine (proj2 (clean_reports_first_failure ImageSamples.super_clean
              (fun _ => (200, 1)) ImageSamples.filesizeformat ImageSamples.gettext
              ImageSamples.avatar_field ImageSamples.small ImageSamples.small
              200 1 _ _) 2 100 _ _ _ _ _ _); first [reflexivity | lia].
Defined.

Lemma clean_inverted_range_rejects_all_witness :
  is_ValidationError
    (clean ImageSamples.super_clean ImageSamples.get_image_dimensions
       ImageSamples.filesizeformat ImageSamples.gettext
       ImageSamples.inverted_field ImageSamples.small) = true.
Proof.
  apply (clean_inverted_range_rejects_all ImageSamples.super_clean
           ImageSamples.get_image_dimensions ImageSamples.filesizeformat
           ImageSamples.gettext ImageSamples.inverted_field
           ImageSamples.small ImageSamples.small 100 50);
    [reflexivity | lia | lia | lia |].
  left. split; reflexivity.
Defined.

Lemma check_upload_size_edges_witness :
  check_upload_size ImageSamples.filesizeformat ImageSamples.gettext
    ImageSamples.avatar_field ImageSamples.stream = Ok tt
  /\ check_upload_size ImageSamples.filesizeformat ImageSamples.gettext
       ImageSamples.half_field (file ImageSamples.heavy) = Ok tt
  /\ is_ValidationError
       (check_upload_size ImageSamples.filesizeformat ImageSamples.gettext
          ImageSamples.negative_field (file ImageSamples.small)) = true.
Proof.
  split; [|split].
  - refine (proj1 (check_upload_size_edges ImageSamples.filesizeformat
                     ImageSamples.gettext ImageSamples.avatar_field
                     ImageSamples.stream) _).
    reflexivity.
  - refine (proj1 (proj2 (check_upload_size_edges ImageSamples.filesizeformat
                            ImageSamples.gettext ImageSamples.half_field
                            (file ImageSamples.heavy))) _).
    right. reflexivity.
  - refine (proj2 (proj2 (check_upload_size_edges ImageSamples.filesizeformat
                            ImageSamples.gettext ImageSamples.negative_field
                            (file ImageSamples.small))) (-1) 2 _ _ _ _);
      first [reflexivity | lia].
Defined.

(** *** The options of the field and the saved file *)

(** X18: a field created without the options checks nothing and resizes
    nothing.  Without [max_upload_size], [min_width] and [min_height]
    among the keyword arguments, [clean] is the framework's [clean];
    without [width] or without [height], [save_form_data] is the
    framework's [save_form_data]. *)
Theorem field_without_options {St PILImage : Type}
    (super_clean : FieldFile -> result FieldFile)
    (get_image_dimensions : FieldFile -> Z * Z)
    (filesizeformat : Z -> string) (gettext : string -> string)
    (super_save_form_data : St -> form_data -> St)
    (Image_open : bytes -> PILImage)
    (thumbnail : PILImage -> Z * Z -> PILImage)
    (save_PNG : PILImage -> bytes)
    (kw : gmap string (option Z)) :
  (kw !! "max_upload_size" = None -> kw !! "min_width" = None ->
   kw !! "min_height" = None ->
   forall value,
     clean super_clean get_image_dimensions filesizeformat gettext
       (ExtendedImageField_init kw) value
     = super_clean value)
  /\ (kw !! "width" = None \/ kw !! "height" = None ->
      forall instance data,
        save_form_data super_save_form_data Image_open thumbnail save_PNG
          (ExtendedImageField_init kw) instance data
        = super_save_form_data instance data).
Proof.
  split.
  - intros Hsize Hw Hh value.
    destruct (super_clean value) as [data|e] eqn:Hsuper.
    + rewrite (clean_unfold _ _ _ _ _ _ _ Hsuper).
      assert (Hs0 : max_upload_size (ExtendedImageField_init kw) = Some 0)
        by (unfold ExtendedImageField_init, pop; cbn [max_upload_size];
            now rewrite Hsize).
      assert (Hw0 : min_width (ExtendedImageField_init kw) = None)
        by (unfold ExtendedImageField_init, pop; cbn [min_width];
            now rewrite Hw).
      assert (Hh0 : min_height (ExtendedImageField_init kw) = None)
        by (unfold ExtendedImageField_init, pop; cbn [min_height];
            now rewrite Hh).
      unfold check_upload_size, check_width, check_height.
      rewrite Hs0, Hw0, Hh0. reflexivity.
    + unfold clean. now rewrite Hsuper.
  - intros H instance data.
    unfold save_form_data, saved_data, ExtendedImageField_init, pop.
    cbn [width height].
    destruct H as [-> | ->]; simpl; now rewrite ?andb_false_r.
Qed.

Lemma field_without_options_witness :
  clean ImageSamples.super_clean ImageSamples.get_image_dimensions
    ImageSamples.filesizeformat ImageSamples.gettext
    (ExtendedImageField_init ∅) ImageSamples.heavy
  = ImageSamples.super_clean ImageSamples.heavy
  /\ save_form_data ImageSamples.super_save_form_data
       ImageSamples.decode ImageSamples.shrink ImageSamples.encode
       (ExtendedImageField_init {[ "width" := Some 4 ]}) []
       (DFile (file ImageSamples.small))
     = ImageSamples.super_save_form_data [] (DFile (file ImageSamples.small)).
Proof.
  split.
  - apply (field_without_options ImageSamples.super_clean
             ImageSamples.get_image_dimensions ImageSamples.filesizeformat
             ImageSamples.gettext ImageSamples.super_save_form_data
             ImageSamples.decode ImageSamples.shrink ImageSamples.encode ∅);
      reflexivity.
  - apply (field_without_options ImageSamples.super_clean
             ImageSamples.get_image_dimensions ImageSamples.filesizeformat
             ImageSamples.gettext ImageSamples.super_save_form_data
             ImageSamples.decode ImageSamples.shrink ImageSamples.encode
             {[ "width" := Some 4 ]}).
    right. reflexivity.
Defined.

(** *** The name of the resized file *)

Local Abbreviation chars := list_ascii_of_string.

Lemma format_png (stem : string) : format "{}.png" [stem] = stem +:+ ".png".
Proof. reflexivity. Qed.

Lemma png_chars (c : ascii) : In c (chars ".png") -> c <> "/"%char.
Proof.
  simpl. intros H. repeat (destruct H as [<-|H]; [discriminate|]). destruct H.
Qed.

Lemma stem_no_slash (n : string) :
  ~ In "/"%char (chars (path_splitext_root (path_split_tail n))).
Proof.
  intros H. apply PyFacts.path_splitext_root_chars in H.
  now apply PyFacts.path_split_tail_no_slash in H.
Qed.

Lemma stem_png_no_slash (stem : string) :
  ~ In "/"%char (chars stem) -> ~ In "/"%char (chars (stem +:+ ".png")).
Proof.
  intros Hs H. rewrite PyFacts.chars_append in H.
  apply in_app_or in H as [H|H]; [tauto | now apply png_chars in H].
Qed.

Lemma UploadedFile_set_name_length (n : string) :
  (String.length (UploadedFile_set_name n) <= 255)%nat.
Proof.
  unfold UploadedFile_set_name.
  destruct (Nat.ltb_spec 255 (String.length (path_split_tail n))) as [Hlong|Hshort];
    [|exact Hshort].
  rewrite MarkupFacts.length_append, !PyFacts.length_take. lia.
Qed.

Lemma UploadedFile_set_name_no_slash (n : string) :
  ~ In "/"%char (chars (UploadedFile_set_name n)).
Proof.
  unfold UploadedFile_set_name.
  destruct (255 <? String.length (path_split_tail n))%nat;
    [|apply PyFacts.path_split_tail_no_slash].
  rewrite PyFacts.chars_append. intros H.
  apply in_app_or in H as [H|H]; apply PyFacts.take_chars in H.
  - apply PyFacts.path_splitext_root_chars in H.
    now apply PyFacts.path_split_tail_no_slash in H.
  - apply PyFacts.path_splitext_ext_chars in H.
    now apply PyFacts.path_split_tail_no_slash in H.
Qed.


Lemma UploadedFile_set_name_nonempty (n : string) :
  path_split_tail n <> "" -> UploadedFile_set_name n <> "".
Proof.
  intros Hne. unfold UploadedFile_set_name.
  destruct (Nat.ltb_spec 255 (String.length (path_split_tail n))) as [Hlong|_];
    [|exact Hne].
  intros E. apply (f_equal String.length) in E.
  rewrite MarkupFacts.length_append, !PyFacts.length_take in E.
  change (String.length "") with O in E.
  pose proof (f_equal String.length
                (PyFacts.path_splitext_root_ext (path_split_tail n))) as Hsum.
  rewrite MarkupFacts.length_append in Hsum. lia.
Qed.

Lemma UploadedFile_set_name_png (stem : string) :
  ~ In "/"%char (chars stem) ->
  (exists a, In a (chars stem) /\ a <> "."%char) ->
  UploadedFile_set_name (stem +:+ ".png") = take 251 stem +:+ ".png".
Proof.
  intros Hslash Hother. unfold UploadedFile_set_name.
  rewrite (PyFacts.path_split_tail_id _ (stem_png_no_slash _ Hslash)).
  pose proof (MarkupFacts.length_append stem ".png") as Hlen. simpl in Hlen.
  destruct (Nat.ltb_spec 255 (String.length (stem +:+ ".png"))) as [Hlong|Hshort].
  - destruct (PyFacts.path_splitext_png stem Hslash Hother) as [-> ->].
    reflexivity.
  - rewrite PyFacts.take_all by lia. reflexivity.
Qed.

(** X19: resizing never turns an upload into a request to clear the
    field, nor the reverse: the data handed to the framework has the
    truth value of the data received. *)
Theorem saved_data_keeps_truth {PILImage : Type}
    (Image_open : bytes -> PILImage)
    (thumbnail : PILImage -> Z * Z -> PILImage)
    (save_PNG : PILImage -> bytes)
    (self : ExtendedImageField) (data : form_data) :
  data_truth (saved_data Image_open thumbnail save_PNG self data)
  = data_truth data.
Proof.
  unfold saved_data.
  destruct (data_truth data && truthy (width self) && truthy (height self))
    eqn:E; [|reflexivity].
  apply andb_true_iff in E as [E _]. apply andb_true_iff in E as [E _].
  rewrite E. destruct data as [| |f|f]; try discriminate E;
    cbn [data_file data_truth SimpleUploadedFile name]; rewrite format_png;
    apply negb_true_iff, String.eqb_neq, UploadedFile_set_name_nonempty;
    rewrite (PyFacts.path_split_tail_id _ (stem_png_no_slash _ (stem_no_slash _)));
    apply append_nonempty.
Qed.

(** X20: the name of the file that a resize hands to the framework has no
    directory part and at most 255 characters; when the base name of the
    upload, without its extension, has a character other than a dot, the
    name is the first 251 characters of that base name followed by
    [.png]; the [size] of the file is the length of its content. *)
Theorem saved_file_name {PILImage : Type}
    (Image_open : bytes -> PILImage)
    (thumbnail : PILImage -> Z * Z -> PILImage)
    (save_PNG : PILImage -> bytes)
    (self : ExtendedImageField) (f : File) (w h : Z) :
  name f <> "" ->
  width self = Some w -> w <> 0 ->
  height self = Some h -> h <> 0 ->
  exists f',
    saved_data Image_open thumbnail save_PNG self (DFile f) = DFile f'
    /\ ~ In "/"%char (list_ascii_of_string (name f'))
    /\ (String.length (name f') <= 255)%nat
    /\ ((exists a, In a (list_ascii_of_string
                          (path_splitext_root (path_split_tail (name f))))
                   /\ a <> "."%char) ->
        name f'
        = take 251 (path_splitext_root (path_split_tail (name f))) +:+ ".png")
    /\ size f' = Some (Z.of_nat (length (content f'))).
Proof.
  intros Hname Hw Hw0 Hh Hh0. unfold saved_data.
  rewrite Hw, Hh, !truthy_Some by assumption.
  assert (data_truth (DFile f) = true) as ->.
  { simpl. apply negb_true_iff, String.eqb_neq. exact Hname. }
  cbn [andb data_file]. rewrite format_png. eexists. split; [reflexivity|].
  cbn [name size content SimpleUploadedFile].
  split; [apply UploadedFile_set_name_no_slash|].
  split; [apply UploadedFile_set_name_length|].
  split; [|reflexivity].
  intros Hother. apply UploadedFile_set_name_png; [apply stem_no_slash | exact Hother].
Qed.

Lemma saved_file_name_witness :
  exists f',
    saved_data ImageSamples.decode ImageSamples.shrink ImageSamples.encode
      ImageSamples.avatar_field (DFile ImageSamples.long) = DFile f'
    /\ ~ In "/"%char (list_ascii_of_string (name f'))
    /\ (String.length (name f') <= 255)%nat
    /\ name f' = take 251 ImageSamples.long_stem +:+ ".png".
Proof.
  destruct (saved_file_name ImageSamples.decode ImageSamples.shrink
              ImageSamples.encode ImageSamples.avatar_field ImageSamples.long 4 4)
    as (f' & Hsaved & Hslash & Hlen & Hname & _);
    [discriminate | reflexivity | discriminate | reflexivity | discriminate |].
  exists f'. split; [exact Hsaved | split; [exact Hslash | split; [exact Hlen|]]].
  etransitivity; [apply Hname | vm_compute; reflexivity].
  exists "a"%char. split; [vm_compute; now left | discriminate].
Defined.

(** *** Saving the form data *)




End ImageExtra.
